(** * tg_stars: the Telegram Stars webhook and its registration endpoint

    A shallow embedding of [api/telegram.js] (the webhook handler) and of the
    companion serverless function that registers the webhook, followed by the
    properties of the dispatch that the specification states.

    JavaScript values are embedded as a JSON-shaped inductive type whose
    numbers are IEEE binary64 floats (Rocq's primitive [float]).  Outbound
    platform calls are recorded in an explicit trace; the platform's answers
    come from a [Network] oracle, and exceptions are threaded through a small
    state-and-exception monad so that [try]/[catch] can be written as in the
    source. *)

From Stdlib Require Import String Ascii List ZArith Bool Floats Uint63 Lia.
From Stdlib Require Import DecimalString.
Import ListNotations.
Local Open Scope list_scope.
Local Open Scope string_scope.
Set Warnings "-register-all".

(** ** JavaScript values *)

Module JS.

Inductive JsVal : Type :=
| JUndefined
| JNull
| JBool (b : bool)
| JNum (n : float)
| JStr (s : string)
| JArr (items : list JsVal)
| JObj (fields : list (string * JsVal)).

(** First binding of a key in an association list (object fields,
    [process.env], request headers). *)
Fixpoint assoc {A : Type} (k : string) (l : list (string * A)) : option A :=
  match l with
  | [] => None
  | (k', v) :: r => if String.eqb k k' then Some v else assoc k r
  end.

(** ToBoolean. *)
Definition truthy (v : JsVal) : bool :=
  match v with
  | JUndefined | JNull => false
  | JBool b => b
  | JNum n => negb (PrimFloat.is_zero n || PrimFloat.is_nan n)
  | JStr s => negb (String.eqb s "")
  | JArr _ | JObj _ => true
  end.

Definition nullish (v : JsVal) : bool :=
  match v with
  | JUndefined | JNull => true
  | _ => false
  end.

(** [a || b] on values. *)
Definition or_else (a b : JsVal) : JsVal := if truthy a then a else b.

(** [a === b].  Arrays and objects compare by identity; the handlers only
    compare a value of the request with a string or number of their own, so
    two objects met here are never the same one. *)
Definition strict_eq (a b : JsVal) : bool :=
  match a, b with
  | JUndefined, JUndefined => true
  | JNull, JNull => true
  | JBool x, JBool y => Bool.eqb x y
  | JNum x, JNum y => PrimFloat.eqb x y
  | JStr x, JStr y => String.eqb x y
  | _, _ => false
  end.

(** SameValueZero on numbers, the comparison of [Array.prototype.includes]. *)
Definition same_value_zero (x y : float) : bool :=
  PrimFloat.eqb x y || (PrimFloat.is_nan x && PrimFloat.is_nan y).

Definition includes (l : list float) (x : float) : bool :=
  existsb (fun a => same_value_zero a x) l.

(** *** Integers inside the floats *)

(** The double nearest to a natural number below 2^53 (exact there). *)
Definition float_of_N53 (z : Z) : float := PrimFloat.of_uint63 (Uint63.of_Z z).

(** [Some z] when the float is integer-valued. *)
Definition float_to_Z (x : float) : option Z :=
  match Prim2SF x with
  | S754_zero _ => Some 0%Z
  | S754_finite s m e =>
      let mag :=
        if (0 <=? e)%Z then Some (Z.pos m * 2 ^ e)%Z
        else if (Z.pos m mod 2 ^ (- e) =? 0)%Z then Some (Z.pos m / 2 ^ (- e))%Z
        else None in
      option_map (fun v => if s then (- v)%Z else v) mag
  | _ => None
  end.

Definition two53 : Z := 9007199254740992.

(** *** The built-ins that are not modelled in detail *)

(** What the JavaScript runtime supplies and the handlers only pass along:
    number parsing and printing outside the plain-integer fragment below,
    JSON printing, whitespace trimming, the clock and the random source. *)
Record Host : Type := {
  StringToNumber_ext : string -> float;
  NumberToString_ext : float -> string;
  Number_toString16 : float -> string;
  JSON_stringify : JsVal -> option nat -> option string;
  String_trim : string -> string;
  Date_now : float;
  Date_toISOString : string;
  Math_random : float
}.

(** *** Number to string *)

Definition string_of_Z (z : Z) : string := NilZero.string_of_int (Z.to_int z).

(** Number::toString(x), radix 10.  Integers of magnitude below 2^53 print
    as their decimal digits; the other finite values are left to the host. *)
Definition NumberToString (h : Host) (x : float) : string :=
  if PrimFloat.is_nan x then "NaN"
  else if PrimFloat.is_zero x then "0"
  else if PrimFloat.is_infinity x then
    (if PrimFloat.ltb x 0 then "-Infinity" else "Infinity")
  else
    match float_to_Z x with
    | Some z => if (Z.abs z <? two53)%Z then string_of_Z z
                else NumberToString_ext h x
    | None => NumberToString_ext h x
    end.

(** The object has an own property of that name. *)
Definition hasOwn (fields : list (string * JsVal)) (k : string) : bool :=
  match assoc k fields with
  | Some _ => true
  | None => false
  end.

(** ToString, as a template literal and [join] apply it; [None] is the
    TypeError "Cannot convert object to primitive value".  An object that
    came out of JSON has no callable property of its own, so its conversion
    finds [Object.prototype.toString] and gives ["[object Object]"], unless
    an own [toString] key hides that method: then no method is left that
    gives a primitive, and the conversion throws.  An array is joined with
    commas, and throws when the conversion of an element does. *)
Fixpoint ToString (h : Host) (v : JsVal) : option string :=
  match v with
  | JUndefined => Some "undefined"
  | JNull => Some "null"
  | JBool true => Some "true"
  | JBool false => Some "false"
  | JNum n => Some (NumberToString h n)
  | JStr s => Some s
  | JArr items =>
      (fix join (l : list JsVal) : option string :=
         match l with
         | [] => Some ""
         | x :: r =>
             match (if nullish x then Some "" else ToString h x) with
             | None => None
             | Some sx =>
                 match r with
                 | [] => Some sx
                 | _ :: _ =>
                     match join r with
                     | None => None
                     | Some sr => Some (sx ++ "," ++ sr)
                     end
                 end
             end
         end) items
  | JObj fields => if hasOwn fields "toString" then None else Some "[object Object]"
  end.

(** [arr.join(sep)]; [None] when the conversion of an element throws. *)
Fixpoint array_join (h : Host) (sep : string) (l : list JsVal) : option string :=
  match l with
  | [] => Some ""
  | x :: r =>
      match (if nullish x then Some "" else ToString h x) with
      | None => None
      | Some sx =>
          match r with
          | [] => Some sx
          | _ :: _ =>
              match array_join h sep r with
              | None => None
              | Some sr => Some (sx ++ sep ++ sr)
              end
          end
      end
  end.

(** Sequencing of conversions: the first that throws ends it. *)
Definition andThen {A B : Type} (o : option A) (k : A -> option B) : option B :=
  match o with
  | Some a => k a
  | None => None
  end.

(** [filter(Boolean)] on strings keeps the non-empty ones. *)
Definition nonEmpty (s : string) : bool := negb (String.eqb s "").

(** The text of a setting in a template literal: a value of [process.env]
    or a header of the request, which is a string or [undefined] and whose
    conversion therefore never throws. *)
Definition settingText (h : Host) (v : JsVal) : string :=
  match ToString h v with
  | Some s => s
  | None => "undefined"
  end.

(** The text in a template literal of what [JSON.stringify] returned: a
    string, or [undefined]. *)
Definition textOrUndefined (o : option string) : string :=
  match o with
  | Some s => s
  | None => "undefined"
  end.

(** *** String to number *)

Definition digit_of (c : ascii) : option Z :=
  let n := nat_of_ascii c in
  if (48 <=? n)%nat && (n <=? 57)%nat then Some (Z.of_nat (n - 48)) else None.

Fixpoint digits_value (acc : Z) (s : string) : option Z :=
  match s with
  | EmptyString => Some acc
  | String c r =>
      match digit_of c with
      | Some d => digits_value (10 * acc + d) r
      | None => None
      end
  end.

(** A non-empty run of at most fifteen decimal digits: its value is below
    2^53, hence a double. *)
Definition plain_digits (s : string) : option float :=
  if String.eqb s "" then None
  else if (15 <? String.length s)%nat then None
  else option_map float_of_N53 (digits_value 0 s).

(** StringToNumber.  The empty string is 0; plain digits, optionally signed,
    are read exactly; every other literal (fractions, exponents, hex,
    surrounding white space, "Infinity") is the host's. *)
Definition StringToNumber (h : Host) (s : string) : float :=
  match s with
  | EmptyString => 0%float
  | String c r =>
      let signed :=
        if Ascii.eqb c "-" then option_map PrimFloat.opp (plain_digits r)
        else if Ascii.eqb c "+" then plain_digits r
        else plain_digits s in
      match signed with
      | Some x => x
      | None => StringToNumber_ext h s
      end
  end.

(** [Number(v)].  The handlers apply it to a string or to [undefined]
    only: a value of [process.env], or an element of [split].  An array or
    object is first converted to a string; where that conversion throws,
    [Number] throws as well, a case no handler can reach and that is given
    [NaN] here. *)
Definition Number (h : Host) (v : JsVal) : float :=
  match v with
  | JUndefined => PrimFloat.nan
  | JNull => 0%float
  | JBool true => 1%float
  | JBool false => 0%float
  | JNum n => n
  | JStr s => StringToNumber h s
  | JArr _ | JObj _ =>
      match ToString h v with
      | Some s => StringToNumber h s
      | None => PrimFloat.nan
      end
  end.

(** *** Strings *)

(** [s.split(sep)] for a one-character separator. *)
Fixpoint split_on (sep : ascii) (s : string) : list string :=
  match s with
  | EmptyString => [EmptyString]
  | String c r =>
      if Ascii.eqb c sep then EmptyString :: split_on sep r
      else match split_on sep r with
           | [] => [String c EmptyString]
           | p :: ps => String c p :: ps
           end
  end.

(** [arr[i]] on an array of strings. *)
Definition index (l : list string) (i : nat) : JsVal :=
  match nth_error l i with
  | Some s => JStr s
  | None => JUndefined
  end.

(** [s.slice(n)] on an ASCII string. *)
Definition slice_from (n : nat) (s : string) : string :=
  String.substring n (String.length s - n) s.

Definition nl : string := String (ascii_of_nat 10) EmptyString.

(** *** Property access *)

(** [v.k] on a value that is neither [undefined] nor [null].  None of the
    keys the handlers read is an own or inherited property of a string,
    number, boolean or array, so those give [undefined]. *)
Definition prop (v : JsVal) (k : string) : JsVal :=
  match v with
  | JObj fields =>
      match assoc k fields with
      | Some x => x
      | None => JUndefined
      end
  | _ => JUndefined
  end.

(** [v?.k]. *)
Definition opt_prop (v : JsVal) (k : string) : JsVal :=
  if nullish v then JUndefined else prop v k.

End JS.
Export JS.

(** ** Effects: exceptions, the outbound trace and the platform client *)

Module Platform.

Inductive Exn : Type :=
| TypeError (msg : string)
| Error (msg : string).

(** [e.message]. *)
Definition message (e : Exn) : string :=
  match e with
  | TypeError m => m
  | Error m => m
  end.

Inductive Outcome (A : Type) : Type :=
| Return (a : A)
| Throw (e : Exn).
Arguments Return {A} a.
Arguments Throw {A} e.

(** One outbound request of the platform client: [tg(method, body)] posts
    [body] to [apiUrl(method)]. *)
Record Call : Type := { method : string; url : string; body : JsVal }.

(** What one invocation leaves behind: the platform calls it attempted, in
    order, and what it wrote with [console.error]. *)
Record Effects : Type := { calls : list Call; logged : list Exn }.

Definition no_effects : Effects := {| calls := []; logged := [] |}.

(** What [fetch] and [res.json()] give for a request: [fetch] rejects, or a
    response arrives whose body parses as JSON ([Some]) or does not
    ([None], which [.catch(() => null)] turns into [null]). *)
Inductive FetchResult : Type :=
| FetchRejected (e : Exn)
| FetchBody (json : option JsVal).

(** The platform seen from the handler: the answer to the n-th request of
    the invocation. *)
Definition Network : Type := nat -> Call -> FetchResult.

Definition M (A : Type) : Type := Effects -> Outcome A * Effects.

Definition ret {A : Type} (a : A) : M A := fun st => (Return a, st).

Definition throw {A : Type} (e : Exn) : M A := fun st => (Throw e, st).

Definition bind {A B : Type} (c : M A) (k : A -> M B) : M B :=
  fun st =>
    match c st with
    | (Return a, st') => k a st'
    | (Throw e, st') => (Throw e, st')
    end.

(** [try { c } catch (e) { handler(e) }]. *)
Definition try_catch {A : Type} (c : M A) (handler : Exn -> M A) : M A :=
  fun st =>
    match c st with
    | (Return a, st') => (Return a, st')
    | (Throw e, st') => handler e st'
    end.

Definition console_error (e : Exn) : M unit :=
  fun st => (Return tt, {| calls := calls st; logged := (logged st ++ [e])%list |}).

Declare Scope js_scope.
Delimit Scope js_scope with js.
Notation "x <- c ;; k" := (bind c (fun x => k))
  (at level 61, c at next level, right associativity) : js_scope.
Local Open Scope js_scope.

(** [v.k]: a TypeError on [undefined] and [null]. *)
Definition get (v : JsVal) (k : string) : M JsVal :=
  if nullish v then throw (TypeError "Cannot read properties of undefined")
  else ret (prop v k).

(** [v.startsWith(p)]: only strings have the method. *)
Definition startsWith (v : JsVal) (p : string) : M bool :=
  match v with
  | JStr s => ret (String.prefix p s)
  | _ => throw (TypeError "startsWith is not a function")
  end.

(** [v.split(sep)]: only strings have the method. *)
Definition split (v : JsVal) (sep : ascii) : M (list string) :=
  match v with
  | JStr s => ret (split_on sep s)
  | _ => throw (TypeError "split is not a function")
  end.

Definition conversionError : Exn :=
  TypeError "Cannot convert object to primitive value".

(** A conversion to a string inside a template literal or a [join]: its
    text, or the TypeError. *)
Definition converted (o : option string) : M string :=
  match o with
  | Some s => ret s
  | None => throw conversionError
  end.

Section Client.

Variable h : Host.
Variable BOT_TOKEN : JsVal.
Variable net : Network.

Definition apiUrl (m : string) : string :=
  "https://api.telegram.org/bot" ++ settingText h BOT_TOKEN ++ "/" ++ m.

(** What [tg] makes of the platform's answer: it throws unless the answer
    is JSON with a truthy [ok], and returns its [result] otherwise.  The
    error it throws carries the description; a description that cannot be
    converted to a string makes the template literal throw instead. *)
Definition answer (m : string) (r : FetchResult) : Outcome JsVal :=
  match r with
  | FetchRejected e => Throw e
  | FetchBody j =>
      let json := match j with Some v => v | None => JNull end in
      if negb (truthy json) || negb (truthy (prop json "ok")) then
        let desc := or_else (opt_prop json "description")
                            (JStr "Unknown Telegram API error") in
        match ToString h desc with
        | Some text => Throw (Error (m ++ " failed: " ++ text))
        | None => Throw conversionError
        end
      else Return (prop json "result")
  end.

(** [tg(method, body)]: one POST to [apiUrl(method)], recorded in the trace
    whatever its fate. *)
Definition tg (m : string) (b : JsVal) : M JsVal :=
  fun st =>
    let c := {| method := m; url := apiUrl m; body := b |} in
    (answer m (net (List.length (calls st)) c),
     {| calls := (calls st ++ [c])%list; logged := logged st |}).

End Client.

(** The HTTP answer of a serverless function: [res.status(s).send(t)]. *)
Record Response : Type := { status : Z; sent : string }.

Record Request : Type := {
  req_method : string;
  req_headers : list (string * string);
  req_query : JsVal;
  req_body : JsVal
}.

(** [process.env[name]] and [req.headers[name]]: a string or [undefined]. *)
Definition lookup (l : list (string * string)) (name : string) : JsVal :=
  match assoc name l with
  | Some s => JStr s
  | None => JUndefined
  end.

End Platform.
Export Platform.
Local Open Scope js_scope.

(** ** api/telegram.js: the webhook handler *)

Module Telegram.

Definition AMOUNTS : list float := [500; 1000; 1500; 2000; 3000; 4000; 5000]%float.

(** [numEnv(name, def)]. *)
Definition numEnv (h : Host) (env : list (string * string))
    (name : string) (def : float) : float :=
  let v := lookup env name in
  if negb (truthy v) then def
  else
    let n := Number h v in
    if PrimFloat.is_finite n then n else def.

(** The module-level constants. *)
Record Config : Type := {
  BOT_TOKEN : JsVal;
  ADMIN_USER_ID : float;
  LOG_CHAT_ID : float;
  WEBHOOK_SECRET : JsVal
}.

Definition loadConfig (h : Host) (env : list (string * string)) : Config :=
  {| BOT_TOKEN := lookup env "BOT_TOKEN";
     ADMIN_USER_ID := numEnv h env "ADMIN_USER_ID" 0;
     LOG_CHAT_ID := numEnv h env "LOG_CHAT_ID" 0;
     WEBHOOK_SECRET := or_else (lookup env "WEBHOOK_SECRET") (JStr "") |}.

Section Handler.

Variable h : Host.
Variable cfg : Config.
Variable net : Network.

Let tg := Platform.tg h (BOT_TOKEN cfg) net.

(** [isAdmin(userId)]. *)
Definition isAdmin (userId : JsVal) : bool :=
  PrimFloat.ltb 0 (ADMIN_USER_ID cfg) && strict_eq userId (JNum (ADMIN_USER_ID cfg)).

(** One button of the keyboard. *)
Definition button (a : float) : JsVal :=
  JObj [("text", JStr (NumberToString h a ++ " ⭐"));
        ("callback_data", JStr ("donate:" ++ NumberToString h a))].

(** [AMOUNTS.slice(i, i + 2)]. *)
Definition slice2 (i : nat) : list float := firstn 2 (skipn i AMOUNTS).

(** The loop [for (let i = 0; i < AMOUNTS.length; i += 2)]; it runs at most
    [AMOUNTS.length] times. *)
Fixpoint keyboardRows (fuel i : nat) : list JsVal :=
  match fuel with
  | O => []
  | S fuel' =>
      if (i <? List.length AMOUNTS)%nat
      then JArr (map button (slice2 i)) :: keyboardRows fuel' (i + 2)
      else []
  end.

(** [donateKeyboard()]. *)
Definition donateKeyboard : JsVal :=
  JObj [("inline_keyboard", JArr (keyboardRows (List.length AMOUNTS) 0))].

(** [safeJsonStringify(obj)].  [JSON.stringify] cannot throw on a value
    that came out of [res.json()], so the [catch] arm is never taken; it
    returns a string, or [undefined] for [undefined]. *)
Definition safeJsonStringify (obj : JsVal) : option string :=
  JSON_stringify h obj (Some 2%nat).

Definition refusal : string := "⛔️ Только для админа".

(** Section 1 of the [try] block: the pre-checkout query. *)
Definition answerPreCheckout (pcq : JsVal) : M unit :=
  id <- get pcq "id" ;;
  _ <- tg "answerPreCheckoutQuery"
         (JObj [("pre_checkout_query_id", id); ("ok", JBool true)]) ;;
  ret tt.

(** The text of the log message of a payment; [None] when one of its
    template literals or the [join] of the names throws.  The two later
    joins are of strings and cannot throw. *)
Definition logLines (from total payload chargeId : JsVal) : option string :=
  andThen (if truthy (prop from "username")
           then option_map (append "@") (ToString h (prop from "username"))
           else Some "") (fun username =>
  andThen (array_join h " "
             (filter truthy [prop from "first_name"; prop from "last_name"]))
          (fun names =>
  let name := String_trim h names in
  let who := String_trim h (String.concat " " (filter nonEmpty [name; username])) in
  andThen (ToString h (prop from "id")) (fun userId =>
  andThen (ToString h total) (fun amount =>
  andThen (ToString h payload) (fun payloadText =>
  andThen (ToString h chargeId) (fun charge =>
  Some (String.concat nl
          ["💫 Stars payment received";
           "from: " ++ who;
           "user_id: " ++ userId;
           "amount: " ++ amount ++ " ⭐";
           "payload: " ++ payloadText;
           "charge_id: " ++ charge;
           "date: " ++ Date_toISOString h]))))))).

(** Section 2: a successful payment, thank and log. *)
Definition thankAndLog (message sp : JsVal) : M unit :=
  chat <- get message "chat" ;;
  chatId <- get chat "id" ;;
  let from := or_else (prop message "from") (JObj []) in
  let total := prop sp "total_amount" in
  let payload := prop sp "invoice_payload" in
  let chargeId := prop sp "telegram_payment_charge_id" in
  amount <- converted (ToString h total) ;;
  _ <- tg "sendMessage"
         (JObj [("chat_id", chatId);
                ("text", JStr ("✅ Получено " ++ amount ++ " ⭐ Спасибо!"))]) ;;
  if truthy (JNum (LOG_CHAT_ID cfg)) then
    lines <- converted (logLines from total payload chargeId) ;;
    _ <- tg "sendMessage"
           (JObj [("chat_id", JNum (LOG_CHAT_ID cfg)); ("text", JStr lines)]) ;;
    ret tt
  else ret tt.

(** The [/balance] command. *)
Definition balanceCommand (chatId userId : JsVal) : M unit :=
  if negb (isAdmin userId) then
    _ <- tg "sendMessage" (JObj [("chat_id", chatId); ("text", JStr refusal)]) ;;
    ret tt
  else
    bal <- tg "getMyStarBalance" (JObj []) ;;
    _ <- tg "sendMessage"
           (JObj [("chat_id", chatId);
                  ("text", JStr ("⭐️ Баланс Stars:" ++ nl ++
                                 textOrUndefined (safeJsonStringify bal)))]) ;;
    ret tt.

(** The [/tx] command. *)
Definition txCommand (chatId userId : JsVal) : M unit :=
  if negb (isAdmin userId) then
    _ <- tg "sendMessage" (JObj [("chat_id", chatId); ("text", JStr refusal)]) ;;
    ret tt
  else
    tx <- tg "getStarTransactions" (JObj [("limit", JNum 10)]) ;;
    _ <- tg "sendMessage"
           (JObj [("chat_id", chatId);
                  ("text", JStr ("🧾 Последние транзакции Stars:" ++ nl ++
                                 textOrUndefined (safeJsonStringify tx)))]) ;;
    ret tt.

(** Section 3: text commands. *)
Definition textCommand (message text : JsVal) : M unit :=
  chat <- get message "chat" ;;
  chatId <- get chat "id" ;;
  let userId := opt_prop (prop message "from") "id" in
  isDonate <- (if strict_eq text (JStr "/start") then ret true
               else startsWith text "/donate") ;;
  if isDonate : bool then
    _ <- tg "sendMessage"
           (JObj [("chat_id", chatId);
                  ("text", JStr "Выбери сумму поддержки в Telegram Stars:");
                  ("reply_markup", donateKeyboard)]) ;;
    ret tt
  else
    isBalance <- startsWith text "/balance" ;;
    if isBalance : bool then balanceCommand chatId userId
    else
      isTx <- startsWith text "/tx" ;;
      if isTx : bool then txCommand chatId userId
      else ret tt.

(** The payload of a new invoice. *)
Definition invoicePayload (amount : float) : string :=
  "donate_" ++ NumberToString h amount ++ "_" ++ NumberToString h (Date_now h) ++ "_" ++
  slice_from 2 (Number_toString16 h (Math_random h)).

Definition invoice (chatId : JsVal) (amount : float) : JsVal :=
  JObj [("chat_id", chatId);
        ("title", JStr "Поддержка проекта");
        ("description", JStr ("Спасибо! Поддержка на " ++ NumberToString h amount ++ " Stars."));
        ("payload", JStr (invoicePayload amount));
        ("provider_token", JStr "");
        ("currency", JStr "XTR");
        ("prices", JArr [JObj [("label", JStr "Support"); ("amount", JNum amount)]])].

(** Section 4: a callback query. *)
Definition callbackQuery (cq : JsVal) : M unit :=
  let data := or_else (prop cq "data") (JStr "") in
  let chatId := opt_prop (opt_prop (prop cq "message") "chat") "id" in
  let cbId := prop cq "id" in
  isDonation <- startsWith data "donate:" ;;
  if (isDonation : bool) && truthy chatId then
    parts <- split data ":" ;;
    let amount := Number h (index parts 1) in
    if negb (includes AMOUNTS amount) then
      _ <- tg "answerCallbackQuery"
             (JObj [("callback_query_id", cbId); ("text", JStr "Неверная сумма")]) ;;
      ret tt
    else
      _ <- tg "answerCallbackQuery" (JObj [("callback_query_id", cbId)]) ;;
      _ <- tg "sendInvoice" (invoice chatId amount) ;;
      ret tt
  else ret tt.

(** The body of the [try] block. *)
Definition dispatch (update : JsVal) : M unit :=
  pcq <- get update "pre_checkout_query" ;;
  if truthy pcq then answerPreCheckout pcq
  else
    message <- get update "message" ;;
    let sp := opt_prop message "successful_payment" in
    if truthy sp then thankAndLog message sp
    else
      let text := opt_prop message "text" in
      if truthy text then textCommand message text
      else
        cq <- get update "callback_query" ;;
        if truthy cq then callbackQuery cq
        else ret tt.

(** [try { ... } catch (e) { console.error("Webhook error:", e); }]. *)
Definition processUpdate (update : JsVal) : M unit :=
  try_catch (dispatch update) console_error.

(** [module.exports]: the gate, the immediate 200, then the dispatch. *)
Definition handler (req : Request) : Response * Effects :=
  if negb (truthy (BOT_TOKEN cfg)) then
    ({| status := 500; sent := "BOT_TOKEN missing" |}, no_effects)
  else if negb (String.eqb (req_method req) "POST") then
    ({| status := 200; sent := "ok" |}, no_effects)
  else if truthy (WEBHOOK_SECRET cfg) &&
          negb (strict_eq (lookup (req_headers req) "x-telegram-bot-api-secret-token")
                          (WEBHOOK_SECRET cfg)) then
    ({| status := 403; sent := "forbidden" |}, no_effects)
  else
    ({| status := 200; sent := "ok" |},
     snd (processUpdate (req_body req) no_effects)).

End Handler.

(** *** The shapes of an update, as the dispatch reads them *)

Definition preCheckoutOf (update : JsVal) : JsVal := prop update "pre_checkout_query".
Definition messageOf (update : JsVal) : JsVal := prop update "message".
Definition paymentOf (update : JsVal) : JsVal :=
  opt_prop (messageOf update) "successful_payment".
Definition textOf (update : JsVal) : JsVal := opt_prop (messageOf update) "text".
Definition callbackOf (update : JsVal) : JsVal := prop update "callback_query".

(** [update.message.chat] and [update.message.chat.id]. *)
Definition chatOf (update : JsVal) : JsVal := prop (messageOf update) "chat".
Definition chatIdOf (update : JsVal) : JsVal := prop (chatOf update) "id".

(** [update.message.from?.id]. *)
Definition senderOf (update : JsVal) : JsVal :=
  opt_prop (prop (messageOf update) "from") "id".

(** [cq.data || ""], [cq.message?.chat?.id] and the amount the token names. *)
Definition dataOf (cq : JsVal) : JsVal := or_else (prop cq "data") (JStr "").
Definition callbackChatOf (cq : JsVal) : JsVal :=
  opt_prop (opt_prop (prop cq "message") "chat") "id".
Definition amountOf (h : Host) (d : string) : float :=
  Number h (index (split_on ":" d) 1).

(** An update that carries a pre-checkout query. *)
Definition isPreCheckout (update : JsVal) : bool := truthy (preCheckoutOf update).

(** A message with a successful payment (and no pre-checkout query). *)
Definition isPayment (update : JsVal) : bool :=
  negb (truthy (preCheckoutOf update)) && truthy (paymentOf update).

(** A text message (and neither of the above). *)
Definition isText (update : JsVal) : bool :=
  negb (truthy (preCheckoutOf update)) && negb (truthy (paymentOf update)) &&
  truthy (textOf update).

(** A callback query (and none of the above). *)
Definition isCallback (update : JsVal) : bool :=
  negb (truthy (preCheckoutOf update)) && negb (truthy (paymentOf update)) &&
  negb (truthy (textOf update)) && truthy (callbackOf update).

(** The message of the update has its [chat], as every message of the
    platform does. *)
Definition hasChat (update : JsVal) : bool := negb (nullish (chatOf update)).

(** A request as the trace records it. *)
Definition request (h : Host) (cfg : Config) (m : string) (b : JsVal) : Call :=
  {| method := m; url := apiUrl h (BOT_TOKEN cfg) m; body := b |}.

(** The platform accepts the n-th request [c]: [tg] returns. *)
Definition accepted (h : Host) (net : Network) (n : nat) (c : Call) : bool :=
  match answer h (method c) (net n c) with
  | Return _ => true
  | Throw _ => false
  end.

(** The result [tg] returns for an accepted request ([undefined] otherwise). *)
Definition resultOf (h : Host) (net : Network) (n : nat) (c : Call) : JsVal :=
  match answer h (method c) (net n c) with
  | Return r => r
  | Throw _ => JUndefined
  end.

(** The calls one update causes, and how its handling ends. *)
Definition attempted (h : Host) (cfg : Config) (net : Network) (update : JsVal)
    : list Call :=
  calls (snd (processUpdate h cfg net update no_effects)).

Definition completion (h : Host) (cfg : Config) (net : Network) (update : JsVal)
    : Outcome unit :=
  fst (processUpdate h cfg net update no_effects).

(** What [console.error] receives when the n-th request [c] fails. *)
Definition failureOf (h : Host) (net : Network) (n : nat) (c : Call) : list Exn :=
  match answer h (method c) (net n c) with
  | Return _ => []
  | Throw e => [e]
  end.

Definition faults (h : Host) (cfg : Config) (net : Network) (update : JsVal)
    : list Exn :=
  logged (snd (processUpdate h cfg net update no_effects)).

(** The two messages a successful payment asks for, given their texts. *)
Definition thanksCall (h : Host) (cfg : Config) (update : JsVal) (amount : string)
    : Call :=
  request h cfg "sendMessage"
    (JObj [("chat_id", chatIdOf update);
           ("text", JStr ("✅ Получено " ++ amount ++ " ⭐ Спасибо!"))]).

Definition logCall (h : Host) (cfg : Config) (lines : string) : Call :=
  request h cfg "sendMessage"
    (JObj [("chat_id", JNum (LOG_CHAT_ID cfg)); ("text", JStr lines)]).

(** The amount of the payment as the thank-you shows it, and the lines of
    its log message; [None] when their conversion throws. *)
Definition amountText (h : Host) (update : JsVal) : option string :=
  ToString h (prop (paymentOf update) "total_amount").

Definition logText (h : Host) (update : JsVal) : option string :=
  logLines h
    (or_else (prop (messageOf update) "from") (JObj []))
    (prop (paymentOf update) "total_amount")
    (prop (paymentOf update) "invoice_payload")
    (prop (paymentOf update) "telegram_payment_charge_id").

(** The thank-you and the log message of a payment, when their texts can
    be built. *)
Definition thankYou (h : Host) (cfg : Config) (update : JsVal) : option Call :=
  option_map (thanksCall h cfg update) (amountText h update).

Definition paymentLog (h : Host) (cfg : Config) (update : JsVal) : option Call :=
  option_map (logCall h cfg) (logText h update).

(** The calls a successful payment causes once the thank-you [thanks] is
    built: the log message follows when a log destination is configured,
    the platform accepted the thank-you, and the log lines can be built. *)
Definition afterThanks (h : Host) (cfg : Config) (net : Network)
    (update : JsVal) (thanks : Call) : list Call :=
  if truthy (JNum (LOG_CHAT_ID cfg)) && accepted h net 0 thanks then
    match paymentLog h cfg update with
    | Some log => [log]
    | None => []
    end
  else [].

(** The calls a button press asks for: the bare acknowledgment, the
    acknowledgment that carries the rejection, and the invoice. *)
Definition plainAck (h : Host) (cfg : Config) (cq : JsVal) : Call :=
  request h cfg "answerCallbackQuery" (JObj [("callback_query_id", prop cq "id")]).

Definition rejectAck (h : Host) (cfg : Config) (cq : JsVal) : Call :=
  request h cfg "answerCallbackQuery"
    (JObj [("callback_query_id", prop cq "id"); ("text", JStr "Неверная сумма")]).

Definition invoiceCall (h : Host) (cfg : Config) (cq : JsVal) (amount : float) : Call :=
  request h cfg "sendInvoice" (invoice h (callbackChatOf cq) amount).

(** The replies to the text commands. *)
Definition keyboardReply (h : Host) (cfg : Config) (update : JsVal) : Call :=
  request h cfg "sendMessage"
    (JObj [("chat_id", chatIdOf update);
           ("text", JStr "Выбери сумму поддержки в Telegram Stars:");
           ("reply_markup", donateKeyboard h)]).

Definition refusalReply (h : Host) (cfg : Config) (update : JsVal) : Call :=
  request h cfg "sendMessage"
    (JObj [("chat_id", chatIdOf update); ("text", JStr refusal)]).

Definition balanceFetch (h : Host) (cfg : Config) : Call :=
  request h cfg "getMyStarBalance" (JObj []).

Definition balanceReply (h : Host) (cfg : Config) (update bal : JsVal) : Call :=
  request h cfg "sendMessage"
    (JObj [("chat_id", chatIdOf update);
           ("text", JStr ("⭐️ Баланс Stars:" ++ nl ++
                          textOrUndefined (safeJsonStringify h bal)))]).

Definition txFetch (h : Host) (cfg : Config) : Call :=
  request h cfg "getStarTransactions" (JObj [("limit", JNum 10)]).

Definition txReply (h : Host) (cfg : Config) (update tx : JsVal) : Call :=
  request h cfg "sendMessage"
    (JObj [("chat_id", chatIdOf update);
           ("text", JStr ("🧾 Последние транзакции Stars:" ++ nl ++
                          textOrUndefined (safeJsonStringify h tx)))]).

(** The command vocabulary and the pattern of a donation token. *)
Definition isDonateCommand (t : string) : bool :=
  String.eqb t "/start" || String.prefix "/donate" t.

Definition isCommand (t : string) : bool :=
  isDonateCommand t || String.prefix "/balance" t || String.prefix "/tx" t.

Definition isDonateToken (d : string) : bool := String.prefix "donate:" d.

(** The update satisfies one of the recognition rules. *)
Definition recognized (update : JsVal) : bool :=
  truthy (preCheckoutOf update) ||
  truthy (paymentOf update) ||
  match textOf update with
  | JStr t => isCommand t
  | _ => false
  end ||
  match dataOf (callbackOf update) with
  | JStr d => isDonateToken d
  | _ => false
  end.

(** The variable is absent, or its value is not a finite number. *)
Definition unusable (h : Host) (env : list (string * string)) (name : string) : bool :=
  match lookup env name with
  | JUndefined => true
  | v => negb (PrimFloat.is_finite (Number h v))
  end.

(** A message that logs a payment: a [sendMessage] whose text opens with
    the heading of [logLines]. *)
Definition isPaymentLog (c : Call) : bool :=
  String.eqb (method c) "sendMessage" &&
  match prop (body c) "text" with
  | JStr t => String.prefix "💫 Stars payment received" t
  | _ => false
  end.

(** Every call a computation adds to the trace satisfies [P]. *)
Definition emits {A : Type} (P : Call -> Prop) (c : M A) : Prop :=
  forall st : Effects, Forall P (calls st) -> Forall P (calls (snd (c st))).

(** A labelled choice of the keyboard. *)
Definition choice (label token : string) : JsVal :=
  JObj [("text", JStr label); ("callback_data", JStr token)].

(** The rows of buttons of a keyboard. *)
Definition rowsOf (kb : JsVal) : list (list JsVal) :=
  match prop kb "inline_keyboard" with
  | JArr rows => map (fun r => match r with JArr bs => bs | _ => [] end) rows
  | _ => []
  end.

(** The action token of a button. *)
Definition tokenOf (b : JsVal) : JsVal := prop b "callback_data".

End Telegram.

(** ** The registration function: sets the webhook of this deployment *)

Module SetWebhook.

(** The module-level constants. *)
Record Config : Type := {
  BOT_TOKEN : JsVal;
  WEBHOOK_SECRET : JsVal;
  SETUP_KEY : JsVal
}.

Definition loadConfig (env : list (string * string)) : Config :=
  {| BOT_TOKEN := lookup env "BOT_TOKEN";
     WEBHOOK_SECRET := or_else (lookup env "WEBHOOK_SECRET") (JStr "");
     SETUP_KEY := or_else (lookup env "SETUP_KEY") (JStr "") |}.

Section Handler.

Variable h : Host.
Variable cfg : Config.
Variable net : Network.

Let tg := Platform.tg h (BOT_TOKEN cfg) net.
Let str := settingText h.

(** The URL the platform is told to deliver to. *)
Definition webhookUrl (req : Request) : string :=
  let host := or_else (lookup (req_headers req) "x-forwarded-host")
                      (lookup (req_headers req) "host") in
  let proto := or_else (lookup (req_headers req) "x-forwarded-proto")
                       (JStr "https") in
  str proto ++ "://" ++ str host ++ "/api/telegram".

Definition setWebhookBody (u : string) : JsVal :=
  JObj [("url", JStr u);
        ("secret_token", or_else (WEBHOOK_SECRET cfg) JUndefined);
        ("drop_pending_updates", JBool true)].

(** [module.exports]. *)
Definition handler (req : Request) : Response * Effects :=
  if negb (truthy (BOT_TOKEN cfg)) then
    ({| status := 500; sent := "BOT_TOKEN missing" |}, no_effects)
  else
    let key := or_else (opt_prop (req_query req) "key") (JStr "") in
    if negb (truthy (SETUP_KEY cfg)) || negb (strict_eq key (SETUP_KEY cfg)) then
      ({| status := 403; sent := "forbidden" |}, no_effects)
    else
      let u := webhookUrl req in
      match tg "setWebhook" (setWebhookBody u) no_effects with
      | (Return result, st) =>
          ({| status := 200;
              sent := "Webhook set OK" ++ nl ++ "URL: " ++ u ++ nl ++
                      "Result: " ++ textOrUndefined (JSON_stringify h result None) |}, st)
      | (Throw e, st) =>
          ({| status := 500; sent := "Error: " ++ message e |}, st)
      end.

End Handler.


Definition suppliedKey (req : Request) : JsVal := opt_prop (req_query req) "key".

(** The registration request as the trace records it. *)
Definition registration (h : Host) (cfg : Config) (u : string) : Call :=
  {| method := "setWebhook";
     url := apiUrl h (BOT_TOKEN cfg) "setWebhook";
     body := setWebhookBody cfg u |}.


End SetWebhook.

(** ** Sample hosts, platforms and updates *)

Module Samples.

(** A host whose fallbacks are placeholders: the inputs below stay inside
    the plain-integer fragment of number parsing and printing. *)
Definition host : Host :=
  {| StringToNumber_ext := fun _ => PrimFloat.nan;
     NumberToString_ext := fun _ => "1e+21";
     Number_toString16 := fun _ => "0.8f3a";
     JSON_stringify := fun v _ =>
       match v with
       | JUndefined => None
       | _ => Some "{}"
       end;
     String_trim := fun s => s;
     Date_now := 1700000000000%float;
     Date_toISOString := "2023-11-14T22:13:20.000Z";
     Math_random := 0.5%float |}.

Definition okBody : JsVal := JObj [("ok", JBool true); ("result", JBool true)].

Definition errBody : JsVal :=
  JObj [("ok", JBool false);
        ("description", JStr "Forbidden: bot was blocked by the user")].

(** A platform that accepts every request. *)
Definition netOk : Network := fun _ _ => FetchBody (Some okBody).

(** A platform that rejects the first request and accepts the later ones. *)
Definition netFirstFails : Network :=
  fun n _ => if Nat.eqb n 0 then FetchBody (Some errBody) else FetchBody (Some okBody).


Definition env : list (string * string) :=
  [("BOT_TOKEN", "123:abc"); ("ADMIN_USER_ID", "777"); ("LOG_CHAT_ID", "4242")].

Definition cfg : Telegram.Config := Telegram.loadConfig host env.

(** No log destination, no administrator. *)
Definition cfgBare : Telegram.Config :=
  Telegram.loadConfig host [("BOT_TOKEN", "123:abc")].

Definition chat (n : float) : JsVal := JObj [("id", JNum n)].
Definition user (n : float) : JsVal := JObj [("id", JNum n); ("first_name", JStr "Ann")].

Definition preCheckoutUpdate : JsVal :=
  JObj [("update_id", JNum 1);
        ("pre_checkout_query",
         JObj [("id", JStr "pcq-1"); ("from", user 5); ("currency", JStr "XTR");
               ("total_amount", JNum 500); ("invoice_payload", JStr "donate_500_1_ab")])].

(** A pre-checkout query in an update that also carries a command and a
    button press. *)
Definition crowdedUpdate : JsVal :=
  JObj [("update_id", JNum 7);
        ("message", JObj [("chat", chat 5); ("from", user 5); ("text", JStr "/start")]);
        ("callback_query",
         JObj [("id", JStr "cb-3");
               ("message", JObj [("chat", chat 5)]);
               ("data", JStr "donate:500")]);
        ("pre_checkout_query", JObj [("id", JStr "pcq-2"); ("from", user 5)])].

Definition paidUpdate : JsVal :=
  JObj [("update_id", JNum 2);
        ("message",
         JObj [("message_id", JNum 10); ("from", user 5); ("chat", chat 5);
               ("successful_payment",
                JObj [("currency", JStr "XTR"); ("total_amount", JNum 500);
                      ("invoice_payload", JStr "donate_500_1_ab");
                      ("telegram_payment_charge_id", JStr "ch_1")])])].




(** A text message that lacks its chat. *)
Definition chatlessTextUpdate (from : float) (t : string) : JsVal :=
  JObj [("update_id", JNum 10);
        ("message",
         JObj [("message_id", JNum 15); ("from", user from); ("text", JStr t)])].

Definition textUpdate (from : float) (t : string) : JsVal :=
  JObj [("update_id", JNum 3);
        ("message",
         JObj [("message_id", JNum 11); ("from", user from); ("chat", chat from);
               ("text", JStr t)])].

(** A button press on a message of the chat [5]. *)
Definition pressUpdate (d : string) : JsVal :=
  JObj [("update_id", JNum 4);
        ("callback_query",
         JObj [("id", JStr "cb-1"); ("from", user 5);
               ("message", JObj [("message_id", JNum 12); ("chat", chat 5)]);
               ("data", JStr d)])].

(** A button press whose originating message is not part of the update. *)
Definition inlinePressUpdate (d : string) : JsVal :=
  JObj [("update_id", JNum 5);
        ("callback_query",
         JObj [("id", JStr "cb-2"); ("from", user 5);
               ("inline_message_id", JStr "im-1"); ("data", JStr d)])].

(** An administrator identifier that is set, but negative. *)
Definition cfgNegative : Telegram.Config :=
  Telegram.loadConfig host [("BOT_TOKEN", "123:abc"); ("ADMIN_USER_ID", "-5")].

(** Variables that are present but are not numbers. *)
Definition cfgGarbled : Telegram.Config :=
  Telegram.loadConfig host
    [("BOT_TOKEN", "123:abc"); ("ADMIN_USER_ID", "admin"); ("LOG_CHAT_ID", "none")].

(** The registration function, configured, and requests to it. *)
Definition setupEnv : list (string * string) :=
  [("BOT_TOKEN", "123:abc"); ("SETUP_KEY", "s3cret"); ("WEBHOOK_SECRET", "hook")].

Definition setupRequest (key : string) (headers : list (string * string)) : Request :=
  {| req_method := "GET";
     req_headers := headers;
     req_query := JObj [("key", JStr key)];
     req_body := JUndefined |}.


Definition direct : list (string * string) := [("host", "stars.example.org")].

(** A housekeeping update none of the sections reads. *)
Definition pollUpdate : JsVal :=
  JObj [("update_id", JNum 6); ("poll", JObj [("id", JStr "p1")])].

End Samples.

(** ** Predicates on traces and on computations *)

Module Invariants.

Import Telegram.

(** The platform methods the webhook handler names. *)
Definition knownMethods : list string :=
  ["answerPreCheckoutQuery"; "sendMessage"; "getMyStarBalance";
   "getStarTransactions"; "answerCallbackQuery"; "sendInvoice"].

Definition knownMethod (c : Call) : bool :=
  existsb (String.eqb (method c)) knownMethods.

(** A call that reads the bot's balance or its transactions. *)
Definition isFetch (c : Call) : bool :=
  String.eqb (method c) "getMyStarBalance" ||
  String.eqb (method c) "getStarTransactions".

(** An invoice for the in-app currency: currency ["XTR"], empty provider
    token, and one price whose amount is one of [AMOUNTS]. *)
Definition starsInvoice (b : JsVal) : bool :=
  strict_eq (prop b "currency") (JStr "XTR") &&
  strict_eq (prop b "provider_token") (JStr "") &&
  match prop b "prices" with
  | JArr [price] =>
      match prop price "amount" with
      | JNum a => includes AMOUNTS a
      | _ => false
      end
  | _ => false
  end.

(** Every [sendInvoice] call is such an invoice. *)
Definition invoiceSafe (c : Call) : bool :=
  negb (String.eqb (method c) "sendInvoice") || starsInvoice (body c).

(** Where a call of the handling of [update] may be addressed: nowhere (the
    call has no [chat_id]), the chat of the message, the chat of the message
    of the callback query, or the log destination. *)
Definition addressedWithin (cfg : Config) (update : JsVal) (c : Call) : Prop :=
  prop (body c) "chat_id" = JUndefined \/
  prop (body c) "chat_id" = chatIdOf update \/
  prop (body c) "chat_id" = callbackChatOf (callbackOf update) \/
  prop (body c) "chat_id" = JNum (LOG_CHAT_ID cfg).

(** A computation adds at most [n] calls to the trace. *)
Definition adds {A : Type} (n : nat) (c : M A) : Prop :=
  forall st : Effects,
    (List.length (calls (snd (c st))) <= List.length (calls st) + n)%nat.

(** The platform accepted every call of a trace; every call but the last. *)
Definition allAccepted (h : Host) (net : Network) (l : list Call) : Prop :=
  forall n c, nth_error l n = Some c -> accepted h net n c = true.

Definition allButLastAccepted (h : Host) (net : Network) (l : list Call) : Prop :=
  forall n c, nth_error l n = Some c -> (S n < List.length l)%nat ->
              accepted h net n c = true.

(** A computation that stops at the first call the platform rejects and
    writes nothing with [console.error] itself. *)
Definition failsFast {A : Type} (h : Host) (net : Network) (c : M A) : Prop :=
  forall st : Effects,
    allAccepted h net (calls st) ->
    logged (snd (c st)) = logged st /\
    match fst (c st) with
    | Return _ => allAccepted h net (calls (snd (c st)))
    | Throw _ => allButLastAccepted h net (calls (snd (c st)))
    end.

(** The string has no colon. *)
Fixpoint colonFree (s : string) : bool :=
  match s with
  | EmptyString => true
  | String c r => negb (Ascii.eqb c ":") && colonFree r
  end.

(** The header that carries the secret of a delivery. *)
Definition secretHeader : string := "x-telegram-bot-api-secret-token".

(** A delivery to the webhook. *)
Definition delivery (m : string) (headers : list (string * string)) (b : JsVal)
    : Request :=
  {| req_method := m; req_headers := headers; req_query := JUndefined; req_body := b |}.

(** A platform whose answers are not JSON. *)
Definition netGarbled : Network := fun _ _ => FetchBody None.

(** A platform that cannot be reached. *)
Definition netDown : Network := fun _ _ => FetchRejected (TypeError "fetch failed").

(** A deployment that checks the secret of its deliveries. *)
Definition guardedEnv : list (string * string) :=
  [("BOT_TOKEN", "123:abc"); ("WEBHOOK_SECRET", "hook"); ("SETUP_KEY", "s3cret")].

End Invariants.

(** ** Properties of the webhook handler *)

Module TelegramSpec.

Import Telegram.

(** *** Reading values *)

Lemma truthy_not_nullish (v : JsVal) : truthy v = true -> nullish v = false.
Proof. destruct v; simpl; intros H; try reflexivity; discriminate H. Qed.

Lemma prop_defined_object (v : JsVal) (k : string) :
  nullish (prop v k) = false -> nullish v = false.
Proof. destruct v; simpl; intros H; try reflexivity; discriminate H. Qed.

Lemma opt_prop_defined (v : JsVal) (k : string) :
  nullish (opt_prop v k) = false -> nullish v = false.
Proof.
  unfold opt_prop. destruct (nullish v) eqn:E; simpl; intros H;
    [discriminate H | reflexivity].
Qed.

Lemma get_defined (v : JsVal) (k : string) (st : Effects) :
  nullish v = false -> get v k st = (Return (prop v k), st).
Proof. unfold get. intros ->. reflexivity. Qed.

Lemma get_nullish (v : JsVal) (k : string) (st : Effects) :
  nullish v = true ->
  get v k st = (Throw (TypeError "Cannot read properties of undefined"), st).
Proof. unfold get. intros ->. reflexivity. Qed.

(** *** The dispatch, section by section *)

Section Dispatch.

Variable h : Host.
Variable cfg : Config.
Variable net : Network.

Lemma dispatch_pre_checkout (update : JsVal) (st : Effects) :
  isPreCheckout update = true ->
  dispatch h cfg net update st
  = answerPreCheckout h cfg net (preCheckoutOf update) st.
Proof.
  unfold isPreCheckout, preCheckoutOf. intros H.
  unfold dispatch, bind.
  rewrite get_defined
    by (apply prop_defined_object with (k := "pre_checkout_query");
        apply truthy_not_nullish; exact H).
  rewrite H. reflexivity.
Qed.

End Dispatch.

Section Payment.

Variable h : Host.
Variable cfg : Config.
Variable net : Network.

Lemma payment_has_message (update : JsVal) :
  isPayment update = true ->
  nullish (messageOf update) = false /\ nullish update = false.
Proof.
  unfold isPayment. intros H. apply andb_true_iff in H as [_ H].
  apply truthy_not_nullish, opt_prop_defined in H.
  split; [exact H |].
  apply prop_defined_object with (k := "message"). exact H.
Qed.

Lemma dispatch_payment (update : JsVal) (st : Effects) :
  isPayment update = true ->
  dispatch h cfg net update st
  = thankAndLog h cfg net (messageOf update) (paymentOf update) st.
Proof.
  intros H. destruct (payment_has_message update H) as [Hm Hu].
  unfold isPayment in H. apply andb_true_iff in H as [Hp Hs].
  apply negb_true_iff in Hp.
  unfold dispatch, bind. rewrite get_defined by exact Hu.
  fold (preCheckoutOf update). cbv beta iota. rewrite Hp.
  rewrite get_defined by exact Hu.
  fold (messageOf update). cbv beta iota zeta.
  fold (paymentOf update). rewrite Hs.
  reflexivity.
Qed.

(** What a successful payment leaves behind, for any answer of the
    platform. *)
Lemma payment_run (update : JsVal) :
  isPayment update = true ->
  processUpdate h cfg net update no_effects
  = (Return tt,
     if hasChat update then
       match amountText h update with
       | Some amount =>
           let thanks := thanksCall h cfg update amount in
           {| calls := thanks :: afterThanks h cfg net update thanks;
              logged :=
                (failureOf h net 0 thanks ++
                 (if truthy (JNum (LOG_CHAT_ID cfg)) && accepted h net 0 thanks
                  then match logText h update with
                       | Some lines => failureOf h net 1 (logCall h cfg lines)
                       | None => [conversionError]
                       end
                  else []))%list |}
       | None => {| calls := []; logged := [conversionError] |}
       end
     else {| calls := [];
             logged := [TypeError "Cannot read properties of undefined"] |}).
Proof.
  intros H. destruct (payment_has_message update H) as [Hm Hu].
  unfold processUpdate, try_catch. rewrite dispatch_payment by exact H.
  unfold thankAndLog, bind. rewrite get_defined by exact Hm.
  fold (chatOf update). unfold hasChat.
  destruct (nullish (chatOf update)) eqn:Hc; cbn [negb].
  - rewrite get_nullish by exact Hc. reflexivity.
  - rewrite get_defined by exact Hc. fold (chatIdOf update).
    cbv zeta. fold (amountText h update).
    destruct (amountText h update) as [amount |]; [| reflexivity].
    cbn [converted ret].
    unfold afterThanks, paymentLog, accepted, failureOf, thanksCall, logCall,
      request, tg.
    cbn [calls logged no_effects List.length app method].
    fold (logText h update).
    destruct (answer h "sendMessage" (net 0%nat _)) as [r | e]; cbn [andb].
    + rewrite andb_true_r.
      destruct (truthy (JNum (LOG_CHAT_ID cfg))); [| reflexivity].
      destruct (logText h update) as [lines |]; [| reflexivity].
      cbn [converted ret option_map calls logged List.length app].
      destruct (answer h "sendMessage" (net 1%nat _)); reflexivity.
    + rewrite andb_false_r. reflexivity.
Qed.

End Payment.

Section Callback.

Variable h : Host.
Variable cfg : Config.
Variable net : Network.

Lemma callback_shape (update : JsVal) :
  isCallback update = true ->
  nullish update = false /\
  truthy (preCheckoutOf update) = false /\
  truthy (paymentOf update) = false /\
  truthy (textOf update) = false /\
  truthy (callbackOf update) = true.
Proof.
  unfold isCallback. intros H.
  apply andb_true_iff in H as [H Hq].
  apply andb_true_iff in H as [H Ht].
  apply andb_true_iff in H as [Hp Hs].
  apply negb_true_iff in Hp, Hs, Ht.
  repeat split; try assumption.
  apply prop_defined_object with (k := "callback_query").
  apply truthy_not_nullish. exact Hq.
Qed.

Lemma dispatch_callback (update : JsVal) (st : Effects) :
  isCallback update = true ->
  dispatch h cfg net update st = callbackQuery h cfg net (callbackOf update) st.
Proof.
  intros H. destruct (callback_shape update H) as (Hu & Hp & Hs & Ht & Hq).
  unfold dispatch, bind. rewrite get_defined by exact Hu.
  fold (preCheckoutOf update). cbv beta iota. rewrite Hp.
  rewrite get_defined by exact Hu.
  fold (messageOf update). cbv beta iota zeta.
  fold (paymentOf update). rewrite Hs.
  fold (textOf update). rewrite Ht.
  rewrite get_defined by exact Hu.
  fold (callbackOf update). cbv beta iota. rewrite Hq.
  reflexivity.
Qed.

(** What a press on a [donate:] button leaves behind, for any answer of the
    platform. *)
Lemma callback_run (update : JsVal) (d : string) :
  isCallback update = true ->
  dataOf (callbackOf update) = JStr d ->
  isDonateToken d = true ->
  let cq := callbackOf update in
  let amount := amountOf h d in
  let ack := plainAck h cfg cq in
  let inv := invoiceCall h cfg cq amount in
  let no := rejectAck h cfg cq in
  processUpdate h cfg net update no_effects
  = (Return tt,
     if truthy (callbackChatOf cq) then
       if includes AMOUNTS amount then
         {| calls := ack :: (if accepted h net 0 ack then [inv] else []);
            logged := (failureOf h net 0 ack ++
                       (if accepted h net 0 ack then failureOf h net 1 inv
                        else []))%list |}
       else {| calls := [no]; logged := failureOf h net 0 no |}
     else no_effects).
Proof.
  intros H Hd Htok. cbv zeta.
  unfold processUpdate, try_catch. rewrite dispatch_callback by exact H.
  unfold callbackQuery, bind.
  fold (dataOf (callbackOf update)). rewrite Hd.
  fold (callbackChatOf (callbackOf update)).
  unfold startsWith, split, ret. fold (isDonateToken d). rewrite Htok.
  cbv beta iota. cbn [andb].
  destruct (truthy (callbackChatOf (callbackOf update))); [| reflexivity].
  fold (amountOf h d).
  destruct (includes AMOUNTS (amountOf h d)); cbn [negb].
  - unfold accepted, failureOf, plainAck, invoiceCall, request, tg.
    cbn [calls logged no_effects List.length app method].
    destruct (answer h "answerCallbackQuery" (net 0%nat _)) as [r | e].
    + cbn [calls logged List.length app].
      destruct (answer h "sendInvoice" (net 1%nat _)); reflexivity.
    + reflexivity.
  - unfold failureOf, rejectAck, request, tg.
    cbn [calls logged no_effects List.length app method].
    destruct (answer h "answerCallbackQuery" (net 0%nat _)); reflexivity.
Qed.

End Callback.

(** *** Prefixes *)

Lemma prefix_cons (c : ascii) (p s : string) :
  String.prefix (String c p) s = true ->
  exists r, s = String c r /\ String.prefix p r = true.
Proof.
  destruct s as [| c' r]; simpl; [discriminate |].
  destruct (ascii_dec c c') as [<- | _]; [| discriminate].
  intros H. exists r. split; [reflexivity | exact H].
Qed.

Lemma balance_not_donate (t : string) :
  String.prefix "/balance" t = true -> isDonateCommand t = false.
Proof.
  intros H. apply prefix_cons in H as (r1 & -> & H).
  apply prefix_cons in H as (r2 & -> & _). reflexivity.
Qed.

Lemma tx_not_donate (t : string) :
  String.prefix "/tx" t = true -> isDonateCommand t = false.
Proof.
  intros H. apply prefix_cons in H as (r1 & -> & H).
  apply prefix_cons in H as (r2 & -> & _). reflexivity.
Qed.

Lemma tx_not_balance (t : string) :
  String.prefix "/tx" t = true -> String.prefix "/balance" t = false.
Proof.
  intros H. apply prefix_cons in H as (r1 & -> & H).
  apply prefix_cons in H as (r2 & -> & _). reflexivity.
Qed.

Lemma prefix_nonempty (c : ascii) (p t : string) :
  String.prefix (String c p) t = true -> truthy (JStr t) = true.
Proof. intros H. apply prefix_cons in H as (r & -> & _). reflexivity. Qed.

Section Text.

Variable h : Host.
Variable cfg : Config.
Variable net : Network.

Lemma text_shape (update : JsVal) :
  isText update = true ->
  nullish update = false /\
  nullish (messageOf update) = false /\
  truthy (preCheckoutOf update) = false /\
  truthy (paymentOf update) = false /\
  truthy (textOf update) = true.
Proof.
  unfold isText. intros H.
  apply andb_true_iff in H as [H Ht].
  apply andb_true_iff in H as [Hp Hs].
  apply negb_true_iff in Hp, Hs.
  assert (Hm : nullish (messageOf update) = false)
    by (apply opt_prop_defined with (k := "text");
        apply truthy_not_nullish; exact Ht).
  repeat split; try assumption.
  apply prop_defined_object with (k := "message"). exact Hm.
Qed.

Lemma dispatch_text (update : JsVal) (st : Effects) :
  isText update = true ->
  dispatch h cfg net update st
  = textCommand h cfg net (messageOf update) (textOf update) st.
Proof.
  intros H. destruct (text_shape update H) as (Hu & Hm & Hp & Hs & Ht).
  unfold dispatch, bind. rewrite get_defined by exact Hu.
  fold (preCheckoutOf update). cbv beta iota. rewrite Hp.
  rewrite get_defined by exact Hu.
  fold (messageOf update). cbv beta iota zeta.
  fold (paymentOf update). rewrite Hs.
  fold (textOf update). rewrite Ht.
  reflexivity.
Qed.

(** A text message without its [chat] stops at [update.message.chat.id]. *)
Lemma text_without_chat (update : JsVal) :
  isText update = true ->
  hasChat update = false ->
  processUpdate h cfg net update no_effects
  = (Return tt,
     {| calls := [];
        logged := [TypeError "Cannot read properties of undefined"] |}).
Proof.
  intros H Hc. destruct (text_shape update H) as (Hu & Hm & _).
  unfold hasChat in Hc. apply negb_false_iff in Hc.
  unfold processUpdate, try_catch. rewrite dispatch_text by exact H.
  unfold textCommand, bind. rewrite get_defined by exact Hm.
  fold (chatOf update). rewrite get_nullish by exact Hc.
  reflexivity.
Qed.

(** The chain of tests on a text that is a string. *)
Lemma text_string (update : JsVal) (t : string) (st : Effects) :
  isText update = true ->
  hasChat update = true ->
  textOf update = JStr t ->
  dispatch h cfg net update st
  = (if isDonateCommand t then
       bind (tg h (BOT_TOKEN cfg) net "sendMessage" (body (keyboardReply h cfg update)))
            (fun _ => ret tt)
     else if String.prefix "/balance" t then
       balanceCommand h cfg net (chatIdOf update) (senderOf update)
     else if String.prefix "/tx" t then
       txCommand h cfg net (chatIdOf update) (senderOf update)
     else ret tt) st.
Proof.
  intros H Hc Ht. destruct (text_shape update H) as (Hu & Hm & _).
  unfold hasChat in Hc. apply negb_true_iff in Hc.
  rewrite dispatch_text by exact H. rewrite Ht.
  unfold textCommand, bind at 1. rewrite get_defined by exact Hm.
  fold (chatOf update). unfold bind at 1. rewrite get_defined by exact Hc.
  fold (chatIdOf update). fold (senderOf update).
  unfold isDonateCommand, startsWith, bind, ret. cbn [strict_eq].
  destruct (String.eqb t "/start"); cbn [orb].
  - reflexivity.
  - destruct (String.prefix "/donate" t); [reflexivity |].
    destruct (String.prefix "/balance" t); [reflexivity |].
    destruct (String.prefix "/tx" t); reflexivity.
Qed.

(** A text that is not a string has no [startsWith]. *)
Lemma text_not_string (update : JsVal) :
  isText update = true ->
  (forall t, textOf update <> JStr t) ->
  attempted h cfg net update = [] /\ completion h cfg net update = Return tt.
Proof.
  intros H Ht. destruct (text_shape update H) as (Hu & Hm & _).
  unfold attempted, completion, processUpdate, try_catch.
  rewrite dispatch_text by exact H.
  unfold textCommand, bind. rewrite get_defined by exact Hm.
  destruct (nullish (prop (messageOf update) "chat")) eqn:Hc.
  - rewrite get_nullish by exact Hc. split; reflexivity.
  - rewrite get_defined by exact Hc.
    destruct (textOf update) eqn:E; try (split; reflexivity).
    exfalso. apply (Ht s). reflexivity.
Qed.

Lemma donate_run (update : JsVal) (t : string) :
  isText update = true ->
  hasChat update = true ->
  textOf update = JStr t ->
  isDonateCommand t = true ->
  let kb := keyboardReply h cfg update in
  processUpdate h cfg net update no_effects
  = (Return tt, {| calls := [kb]; logged := failureOf h net 0 kb |}).
Proof.
  intros H Hc Ht Hd. cbv zeta.
  unfold processUpdate, try_catch.
  rewrite (text_string update t) by assumption. rewrite Hd.
  unfold bind, failureOf, keyboardReply, request, tg.
  cbn [calls logged no_effects List.length app method body].
  destruct (answer h "sendMessage" (net 0%nat _)); reflexivity.
Qed.

Lemma balance_run (update : JsVal) (t : string) :
  isText update = true ->
  hasChat update = true ->
  textOf update = JStr t ->
  String.prefix "/balance" t = true ->
  let no := refusalReply h cfg update in
  let fetch := balanceFetch h cfg in
  let reply := balanceReply h cfg update (resultOf h net 0 fetch) in
  processUpdate h cfg net update no_effects
  = (Return tt,
     if isAdmin cfg (senderOf update) then
       {| calls := fetch :: (if accepted h net 0 fetch then [reply] else []);
          logged := (failureOf h net 0 fetch ++
                     (if accepted h net 0 fetch then failureOf h net 1 reply
                      else []))%list |}
     else {| calls := [no]; logged := failureOf h net 0 no |}).
Proof.
  intros H Hc Ht Hb. cbv zeta.
  unfold processUpdate, try_catch.
  rewrite (text_string update t) by assumption.
  rewrite (balance_not_donate t Hb), Hb.
  unfold balanceCommand.
  destruct (isAdmin cfg (senderOf update)); cbn [negb].
  - unfold bind, accepted, resultOf, failureOf, balanceFetch, balanceReply,
      request, tg.
    cbn [calls logged no_effects List.length app method].
    destruct (answer h "getMyStarBalance" (net 0%nat _)) as [r | e].
    + cbn [calls logged List.length app].
      destruct (answer h "sendMessage" (net 1%nat _)); reflexivity.
    + reflexivity.
  - unfold bind, failureOf, refusalReply, request, tg.
    cbn [calls logged no_effects List.length app method].
    destruct (answer h "sendMessage" (net 0%nat _)); reflexivity.
Qed.

Lemma tx_run (update : JsVal) (t : string) :
  isText update = true ->
  hasChat update = true ->
  textOf update = JStr t ->
  String.prefix "/tx" t = true ->
  let no := refusalReply h cfg update in
  let fetch := txFetch h cfg in
  let reply := txReply h cfg update (resultOf h net 0 fetch) in
  processUpdate h cfg net update no_effects
  = (Return tt,
     if isAdmin cfg (senderOf update) then
       {| calls := fetch :: (if accepted h net 0 fetch then [reply] else []);
          logged := (failureOf h net 0 fetch ++
                     (if accepted h net 0 fetch then failureOf h net 1 reply
                      else []))%list |}
     else {| calls := [no]; logged := failureOf h net 0 no |}).
Proof.
  intros H Hc Ht Hb. cbv zeta.
  unfold processUpdate, try_catch.
  rewrite (text_string update t) by assumption.
  rewrite (tx_not_donate t Hb), (tx_not_balance t Hb), Hb.
  unfold txCommand.
  destruct (isAdmin cfg (senderOf update)); cbn [negb].
  - unfold bind, accepted, resultOf, failureOf, txFetch, txReply, request, tg.
    cbn [calls logged no_effects List.length app method].
    destruct (answer h "getStarTransactions" (net 0%nat _)) as [r | e].
    + cbn [calls logged List.length app].
      destruct (answer h "sendMessage" (net 1%nat _)); reflexivity.
    + reflexivity.
  - unfold bind, failureOf, refusalReply, request, tg.
    cbn [calls logged no_effects List.length app method].
    destruct (answer h "sendMessage" (net 0%nat _)); reflexivity.
Qed.

End Text.

(** *** Calls a computation can add to the trace *)

Section Emits.

Variable P : Call -> Prop.

Lemma emits_ret {A : Type} (a : A) : emits P (ret a).
Proof. intros st H. exact H. Qed.

Lemma emits_throw {A : Type} (e : Exn) : emits P (@throw A e).
Proof. intros st H. exact H. Qed.

Lemma emits_get (v : JsVal) (k : string) : emits P (get v k).
Proof. unfold get. destruct (nullish v); [apply emits_throw | apply emits_ret]. Qed.

Lemma emits_startsWith (v : JsVal) (p : string) : emits P (startsWith v p).
Proof. destruct v; simpl; first [apply emits_throw | apply emits_ret]. Qed.

Lemma emits_console_error (e : Exn) : emits P (console_error e).
Proof. intros st H. exact H. Qed.

Lemma emits_split (v : JsVal) (sep : ascii) : emits P (split v sep).
Proof. destruct v; simpl; first [apply emits_throw | apply emits_ret]. Qed.

Lemma emits_converted (o : option string) : emits P (converted o).
Proof. destruct o; simpl; [apply emits_ret | apply emits_throw]. Qed.

Lemma emits_bind {A B : Type} (c : M A) (k : A -> M B) :
  emits P c -> (forall a, emits P (k a)) -> emits P (bind c k).
Proof.
  intros Hc Hk st H. unfold bind. specialize (Hc st H).
  destruct (c st) as [[a | e] st']; simpl in Hc.
  - apply Hk. exact Hc.
  - exact Hc.
Qed.

Lemma emits_try_catch {A : Type} (c : M A) (handler : Exn -> M A) :
  emits P c -> (forall e, emits P (handler e)) -> emits P (try_catch c handler).
Proof.
  intros Hc Hk st H. unfold try_catch. specialize (Hc st H).
  destruct (c st) as [[a | e] st']; simpl in Hc.
  - exact Hc.
  - apply Hk. exact Hc.
Qed.

Lemma emits_tg (h : Host) (tok : JsVal) (net : Network) (m : string) (b : JsVal) :
  P {| method := m; url := apiUrl h tok m; body := b |} ->
  emits P (tg h tok net m b).
Proof.
  intros Hp st H. unfold tg. cbn [snd calls].
  apply Forall_app. split; [exact H |]. constructor; [exact Hp | constructor].
Qed.

Lemma emits_if {A : Type} (b : bool) (c1 c2 : M A) :
  emits P c1 -> emits P c2 -> emits P (if b then c1 else c2).
Proof. destruct b; intros H1 H2; assumption. Qed.

End Emits.

(** *** Without a log destination *)

Lemma truthy_zero : truthy (JNum 0) = false.
Proof. reflexivity. Qed.

Ltac emit_step :=
  first
    [ apply emits_ret
    | apply emits_throw
    | apply emits_get
    | apply emits_startsWith
    | apply emits_split
    | apply emits_converted
    | apply emits_console_error
    | apply emits_tg; reflexivity
    | apply emits_if
    | apply emits_bind; [| intros ?] ].

Lemma dispatch_no_log
    (h : Host) (cfg : Config) (net : Network) (update : JsVal) :
  LOG_CHAT_ID cfg = 0%float ->
  emits (fun c => isPaymentLog c = false) (dispatch h cfg net update).
Proof.
  intros Hlog.
  unfold dispatch, answerPreCheckout, thankAndLog, textCommand,
    balanceCommand, txCommand, callbackQuery.
  rewrite Hlog, truthy_zero. cbv zeta.
  repeat emit_step.
Qed.

(** C1.  An update that carries a pre-checkout query causes exactly one
    platform call, whatever the platform answers: [answerPreCheckoutQuery]
    with the query's id and [ok: true] and nothing else in its body (no
    text, no error message), with no administrator check on the way.  Being
    the only call it is also the first one, and the handling of the update
    ends normally. *)
Theorem pre_checkout_acknowledged_once
    (h : Host) (cfg : Config) (net : Network) (update : JsVal) :
  isPreCheckout update = true ->
  attempted h cfg net update
  = [request h cfg "answerPreCheckoutQuery"
       (JObj [("pre_checkout_query_id", prop (preCheckoutOf update) "id");
              ("ok", JBool true)])]
  /\ completion h cfg net update = Return tt.
Proof.
  intros H. unfold attempted, completion, processUpdate, try_catch.
  rewrite dispatch_pre_checkout by exact H.
  unfold answerPreCheckout, bind.
  rewrite get_defined by (apply truthy_not_nullish; exact H).
  unfold tg, request. cbn [calls no_effects List.length app method].
  destruct (answer h "answerPreCheckoutQuery" _); split; reflexivity.
Qed.

Lemma pre_checkout_acknowledged_once_witness :
  isPreCheckout Samples.preCheckoutUpdate = true /\
  attempted Samples.host Samples.cfg Samples.netFirstFails Samples.preCheckoutUpdate
  = [request Samples.host Samples.cfg "answerPreCheckoutQuery"
       (JObj [("pre_checkout_query_id", JStr "pcq-1"); ("ok", JBool true)])] /\
  attempted Samples.host Samples.cfg Samples.netOk Samples.crowdedUpdate
  = [request Samples.host Samples.cfg "answerPreCheckoutQuery"
       (JObj [("pre_checkout_query_id", JStr "pcq-2"); ("ok", JBool true)])].
Proof.
  split; [reflexivity | split].
  - apply (pre_checkout_acknowledged_once Samples.host Samples.cfg
             Samples.netFirstFails Samples.preCheckoutUpdate).
    reflexivity.
  - apply (pre_checkout_acknowledged_once Samples.host Samples.cfg
             Samples.netOk Samples.crowdedUpdate).
    reflexivity.
Defined.




Lemma token_data (cq : JsVal) (d : string) :
  prop cq "data" = JStr d -> isDonateToken d = true -> dataOf cq = JStr d.
Proof.
  intros Hd Ht. unfold dataOf, or_else. rewrite Hd.
  unfold isDonateToken in Ht. rewrite (prefix_nonempty _ _ _ Ht). reflexivity.
Qed.

(** C3, as the code has it.  For a button press whose token is
    [donate:<amount>] with an amount outside the allowed ones, the amount
    being [Number] of the token's second field (what stands between its
    first colon and its next colon or its end), no [sendInvoice] call is
    ever attempted; and when the press comes with the
    chat of its message (the guard of the branch), the only call is
    [answerCallbackQuery] for that press, carrying the rejection text.
    Without a chat identifier the press causes no call at all. *)
Theorem rejected_amount_acknowledged
    (h : Host) (cfg : Config) (net : Network) (update : JsVal) (d : string) :
  isCallback update = true ->
  prop (callbackOf update) "data" = JStr d ->
  isDonateToken d = true ->
  includes AMOUNTS (amountOf h d) = false ->
  let cq := callbackOf update in
  (forall c, In c (attempted h cfg net update) -> method c <> "sendInvoice") /\
  (truthy (callbackChatOf cq) = true ->
   attempted h cfg net update
   = [request h cfg "answerCallbackQuery"
        (JObj [("callback_query_id", prop cq "id");
               ("text", JStr "Неверная сумма")])]) /\
  (truthy (callbackChatOf cq) = false -> attempted h cfg net update = []).
Proof.
  intros H Hd Ht Ha. cbv zeta. unfold attempted.
  rewrite (callback_run h cfg net update d H (token_data _ _ Hd Ht) Ht).
  rewrite Ha.
  destruct (truthy (callbackChatOf (callbackOf update))); cbn [snd calls].
  - repeat split; try discriminate.
    intros c [<- | []]. discriminate.
  - repeat split; try discriminate. intros c [].
Qed.

Lemma rejected_amount_acknowledged_witness :
  attempted Samples.host Samples.cfg Samples.netOk (Samples.pressUpdate "donate:999")
  = [request Samples.host Samples.cfg "answerCallbackQuery"
       (JObj [("callback_query_id", JStr "cb-1"); ("text", JStr "Неверная сумма")])].
Proof.
  apply (rejected_amount_acknowledged Samples.host Samples.cfg Samples.netOk
           (Samples.pressUpdate "donate:999") "donate:999");
    reflexivity.
Defined.

(** C3 as stated fails: a press on [donate:999] that arrives without the
    chat of its message is a rejected amount, and it is not acknowledged. *)
Lemma rejected_press_without_chat_unanswered :
  isCallback (Samples.inlinePressUpdate "donate:999") = true /\
  prop (callbackOf (Samples.inlinePressUpdate "donate:999")) "data"
  = JStr "donate:999" /\
  includes AMOUNTS (amountOf Samples.host "donate:999") = false /\
  attempted Samples.host Samples.cfg Samples.netOk
    (Samples.inlinePressUpdate "donate:999") = [].
Proof. repeat split; reflexivity. Qed.

(** C4, as the code has it.  For a button press whose token is
    [donate:<amount>] with an allowed amount, and which comes with the chat
    of its message: the first call is [answerCallbackQuery] for that press
    with no text; once the platform has accepted it, exactly one more call
    follows, [sendInvoice] to that chat, whose payload is
    [donate_<amount>_<clock>_<random hex>], whose provider token is empty,
    whose currency is ["XTR"] and whose prices are the single item
    [{label: "Support", amount}].  If the acknowledgment fails, it stays the
    only call. *)
Theorem allowed_amount_invoiced
    (h : Host) (cfg : Config) (net : Network) (update : JsVal) (d : string) :
  isCallback update = true ->
  prop (callbackOf update) "data" = JStr d ->
  isDonateToken d = true ->
  includes AMOUNTS (amountOf h d) = true ->
  truthy (callbackChatOf (callbackOf update)) = true ->
  let cq := callbackOf update in
  let amount := amountOf h d in
  let ack := request h cfg "answerCallbackQuery"
               (JObj [("callback_query_id", prop cq "id")]) in
  exists inv : Call,
    attempted h cfg net update
    = ack :: (if accepted h net 0 ack then [inv] else []) /\
    method inv = "sendInvoice" /\
    prop (body inv) "chat_id" = callbackChatOf cq /\
    prop (body inv) "payload"
    = JStr ("donate_" ++ NumberToString h amount ++ "_" ++
            NumberToString h (Date_now h) ++ "_" ++
            slice_from 2 (Number_toString16 h (Math_random h))) /\
    prop (body inv) "provider_token" = JStr "" /\
    prop (body inv) "currency" = JStr "XTR" /\
    prop (body inv) "prices"
    = JArr [JObj [("label", JStr "Support"); ("amount", JNum amount)]].
Proof.
  intros H Hd Ht Ha Hc. cbv zeta.
  exists (invoiceCall h cfg (callbackOf update) (amountOf h d)).
  unfold attempted.
  rewrite (callback_run h cfg net update d H (token_data _ _ Hd Ht) Ht).
  rewrite Ha, Hc. repeat split; reflexivity.
Qed.

Lemma allowed_amount_invoiced_witness :
  exists inv : Call,
    attempted Samples.host Samples.cfg Samples.netOk (Samples.pressUpdate "donate:1000")
    = [request Samples.host Samples.cfg "answerCallbackQuery"
         (JObj [("callback_query_id", JStr "cb-1")]); inv] /\
    prop (body inv) "prices"
    = JArr [JObj [("label", JStr "Support"); ("amount", JNum 1000)]].
Proof.
  destruct (allowed_amount_invoiced Samples.host Samples.cfg Samples.netOk
              (Samples.pressUpdate "donate:1000") "donate:1000")
    as (inv & Hrun & _ & _ & _ & _ & _ & Hprices);
    try reflexivity.
  exists inv. split; [exact Hrun | exact Hprices].
Defined.

(** C4 as stated fails: a press on [donate:1000] that arrives without the
    chat of its message is neither acknowledged nor invoiced; and when the
    platform rejects the acknowledgment, no invoice follows it. *)
Lemma allowed_press_without_invoice :
  isCallback (Samples.inlinePressUpdate "donate:1000") = true /\
  includes AMOUNTS (amountOf Samples.host "donate:1000") = true /\
  attempted Samples.host Samples.cfg Samples.netOk
    (Samples.inlinePressUpdate "donate:1000") = [] /\
  isCallback (Samples.pressUpdate "donate:1000") = true /\
  attempted Samples.host Samples.cfg Samples.netFirstFails
    (Samples.pressUpdate "donate:1000")
  = [request Samples.host Samples.cfg "answerCallbackQuery"
       (JObj [("callback_query_id", JStr "cb-1")])].
Proof. repeat split; reflexivity. Qed.

(** C5, as the code has it.  [isAdmin] answers [true] exactly when the
    configured administrator identifier is greater than zero and the user
    identifier is a number equal to it.  It is the only capability check. *)
Theorem isAdmin_iff_positive_and_equal (cfg : Config) (userId : JsVal) :
  isAdmin cfg userId = true <->
  PrimFloat.ltb 0 (ADMIN_USER_ID cfg) = true /\
  exists x : float, userId = JNum x /\ PrimFloat.eqb x (ADMIN_USER_ID cfg) = true.
Proof.
  unfold isAdmin. rewrite andb_true_iff. split.
  - intros [Hpos Heq]. split; [exact Hpos |].
    destruct userId; try discriminate Heq.
    exists n. split; [reflexivity | exact Heq].
  - intros [Hpos (x & -> & Heq)]. split; [exact Hpos | exact Heq].
Qed.

Lemma isAdmin_iff_positive_and_equal_witness :
  isAdmin Samples.cfg (JNum 777) = true.
Proof.
  apply (isAdmin_iff_positive_and_equal Samples.cfg (JNum 777)).
  split; [reflexivity |].
  exists 777%float. split; reflexivity.
Defined.

(** C5 as stated fails: an administrator identifier that is set to a
    non-zero but negative number is equal to the user identifier [-5], and
    the check still answers [false]. *)
Lemma negative_admin_not_privileged :
  ADMIN_USER_ID Samples.cfgNegative = (-5)%float /\
  PrimFloat.is_zero (ADMIN_USER_ID Samples.cfgNegative) = false /\
  strict_eq (JNum (-5)) (JNum (ADMIN_USER_ID Samples.cfgNegative)) = true /\
  isAdmin Samples.cfgNegative (JNum (-5)) = false.
Proof. repeat split; reflexivity. Qed.




Lemma donateKeyboard_grid (h : Host) :
  donateKeyboard h
  = JObj [("inline_keyboard",
           JArr [JArr [choice "500 ⭐" "donate:500"; choice "1000 ⭐" "donate:1000"];
                 JArr [choice "1500 ⭐" "donate:1500"; choice "2000 ⭐" "donate:2000"];
                 JArr [choice "3000 ⭐" "donate:3000"; choice "4000 ⭐" "donate:4000"];
                 JArr [choice "5000 ⭐" "donate:5000"]])].
Proof. reflexivity. Qed.

(** C7, as the code has it.  A text that is [/start] or begins with
    [/donate], in a message that carries its chat, gets exactly one reply,
    sent to that chat, with the grid of the seven allowed amounts in
    ascending order: two per row, the seventh alone on the fourth row, each
    choice labelled with its amount and carrying the token
    [donate:<amount>].  In a message that lacks its chat it gets no reply. *)
Theorem start_shows_amount_grid
    (h : Host) (cfg : Config) (net : Network) (update : JsVal) (t : string) :
  isText update = true ->
  textOf update = JStr t ->
  t = "/start" \/ String.prefix "/donate" t = true ->
  (hasChat update = true ->
   attempted h cfg net update
   = [request h cfg "sendMessage"
        (JObj [("chat_id", chatIdOf update);
               ("text", JStr "Выбери сумму поддержки в Telegram Stars:");
               ("reply_markup",
                JObj [("inline_keyboard",
                       JArr [JArr [choice "500 ⭐" "donate:500";
                                   choice "1000 ⭐" "donate:1000"];
                             JArr [choice "1500 ⭐" "donate:1500";
                                   choice "2000 ⭐" "donate:2000"];
                             JArr [choice "3000 ⭐" "donate:3000";
                                   choice "4000 ⭐" "donate:4000"];
                             JArr [choice "5000 ⭐" "donate:5000"]])])])]) /\
  (hasChat update = false -> attempted h cfg net update = []).
Proof.
  intros H Ht Hd. unfold attempted.
  assert (Hcmd : isDonateCommand t = true).
  { unfold isDonateCommand. destruct Hd as [-> | Hd]; [reflexivity |].
    rewrite Hd. apply orb_true_r. }
  split; intros Hc.
  - rewrite (donate_run h cfg net update t) by assumption.
    unfold keyboardReply. rewrite donateKeyboard_grid. reflexivity.
  - rewrite (text_without_chat h cfg net) by assumption. reflexivity.
Qed.

Lemma start_shows_amount_grid_witness :
  List.length
    (attempted Samples.host Samples.cfg Samples.netOk
       (Samples.textUpdate 5 "/donate please")) = 1%nat /\
  attempted Samples.host Samples.cfg Samples.netOk
    (Samples.chatlessTextUpdate 5 "/donate please") = [].
Proof.
  split.
  - rewrite (proj1 (start_shows_amount_grid Samples.host Samples.cfg
               Samples.netOk (Samples.textUpdate 5 "/donate please")
               "/donate please" eq_refl eq_refl (or_intror eq_refl)) eq_refl).
    reflexivity.
  - apply (proj2 (start_shows_amount_grid Samples.host Samples.cfg
             Samples.netOk (Samples.chatlessTextUpdate 5 "/donate please")
             "/donate please" eq_refl eq_refl (or_intror eq_refl)));
      reflexivity.
Defined.

(** C7 as stated fails: the grid sent for [/start] holds seven amounts, not
    six, and its last row holds one choice, not two.  And a [/start] whose
    message lacks its chat gets no reply. *)
Lemma start_grid_has_seven_amounts :
  map (fun c => map (@List.length JsVal) (rowsOf (prop (body c) "reply_markup")))
      (attempted Samples.host Samples.cfg Samples.netOk (Samples.textUpdate 5 "/start"))
  = [[2; 2; 2; 1]]%nat /\
  map (fun c => List.length (concat (rowsOf (prop (body c) "reply_markup"))))
      (attempted Samples.host Samples.cfg Samples.netOk (Samples.textUpdate 5 "/start"))
  <> [6%nat] /\
  isText (Samples.chatlessTextUpdate 5 "/start") = true /\
  attempted Samples.host Samples.cfg Samples.netOk
    (Samples.chatlessTextUpdate 5 "/start") = [].
Proof.
  split; [reflexivity | split; [vm_compute; discriminate |]].
  split; reflexivity.
Qed.

(** The handling of an update never throws to its caller. *)
Lemma processUpdate_completes
    (h : Host) (cfg : Config) (net : Network) (update : JsVal) (st : Effects) :
  fst (processUpdate h cfg net update st) = Return tt.
Proof.
  unfold processUpdate, try_catch.
  destruct (dispatch h cfg net update st) as [[[] | e] st']; reflexivity.
Qed.

(** A request that passes the gate is answered 200 and handled. *)
Lemma handler_accepts
    (h : Host) (cfg : Config) (net : Network) (req : Request) :
  truthy (BOT_TOKEN cfg) = true ->
  req_method req = "POST" ->
  truthy (WEBHOOK_SECRET cfg) = false \/
  strict_eq (lookup (req_headers req) "x-telegram-bot-api-secret-token")
            (WEBHOOK_SECRET cfg) = true ->
  handler h cfg net req
  = ({| status := 200; sent := "ok" |},
     snd (processUpdate h cfg net (req_body req) no_effects)).
Proof.
  intros Ht Hm Hs. unfold handler. rewrite Ht, Hm.
  change (negb ("POST" =? "POST")%string) with false. cbn [negb].
  destruct Hs as [Hs | Hs]; rewrite Hs; [| rewrite andb_false_r]; reflexivity.
Qed.

(** A delivery stopped at the gate causes no call. *)
Lemma handler_refuses
    (h : Host) (cfg : Config) (net : Network) (req : Request) :
  truthy (BOT_TOKEN cfg) = false \/
  req_method req <> "POST" \/
  (truthy (WEBHOOK_SECRET cfg) = true /\
   strict_eq (lookup (req_headers req) "x-telegram-bot-api-secret-token")
             (WEBHOOK_SECRET cfg) = false) ->
  snd (handler h cfg net req) = no_effects.
Proof.
  unfold handler. intros [Ht | [Hm | [Hs He]]].
  - rewrite Ht. reflexivity.
  - destruct (truthy (BOT_TOKEN cfg)); [| reflexivity]. cbn [negb].
    apply String.eqb_neq in Hm. rewrite Hm. reflexivity.
  - destruct (truthy (BOT_TOKEN cfg)); [| reflexivity]. cbn [negb].
    destruct (String.eqb (req_method req) "POST"); [| reflexivity]. cbn [negb].
    rewrite Hs, He. reflexivity.
Qed.

(** C9.  An update that satisfies none of the recognition rules (no
    pre-checkout query, no successful payment, no text that is one of the
    commands, no callback whose token begins with [donate:]) causes no
    platform call at all, and its handling ends normally: nothing is thrown
    to the caller. *)
Theorem unrecognized_update_ignored
    (h : Host) (cfg : Config) (net : Network) (update : JsVal) :
  recognized update = false ->
  attempted h cfg net update = [] /\
  completion h cfg net update = Return tt.
Proof.
  unfold recognized. intros H.
  apply orb_false_iff in H as [H Hcb].
  apply orb_false_iff in H as [H Htxt].
  apply orb_false_iff in H as [Hp Hs].
  destruct (truthy (textOf update)) eqn:Ht.
  - assert (Hi : isText update = true)
      by (unfold isText; rewrite Hp, Hs, Ht; reflexivity).
    destruct (hasChat update) eqn:Hc.
    + destruct (textOf update) as [| | b | n | t | l | f] eqn:E;
        try (apply (text_not_string h cfg net); [exact Hi | rewrite E; discriminate]).
      unfold isCommand in Htxt.
      apply orb_false_iff in Htxt as [Htxt Hx].
      apply orb_false_iff in Htxt as [Hd Hb].
      unfold attempted, completion, processUpdate, try_catch.
      rewrite (text_string h cfg net update t) by assumption.
      rewrite Hd, Hb, Hx. split; reflexivity.
    + unfold attempted, completion.
      rewrite (text_without_chat h cfg net) by assumption. split; reflexivity.
  - unfold attempted, completion, processUpdate, try_catch, dispatch, bind.
    destruct (nullish update) eqn:Hu.
    + rewrite get_nullish by exact Hu. split; reflexivity.
    + rewrite get_defined by exact Hu.
      fold (preCheckoutOf update). cbv beta iota. rewrite Hp.
      rewrite get_defined by exact Hu.
      fold (messageOf update). cbv beta iota zeta.
      fold (paymentOf update). rewrite Hs.
      fold (textOf update). rewrite Ht.
      rewrite get_defined by exact Hu.
      fold (callbackOf update). cbv beta iota.
      destruct (truthy (callbackOf update)); [| split; reflexivity].
      unfold callbackQuery, bind.
      fold (dataOf (callbackOf update)).
      destruct (dataOf (callbackOf update)) as [| | b | n | d | l | f];
        try (split; reflexivity).
      unfold startsWith, ret. fold (isDonateToken d). rewrite Hcb.
      split; reflexivity.
Qed.

Lemma unrecognized_update_ignored_witness :
  attempted Samples.host Samples.cfg Samples.netOk Samples.pollUpdate = [] /\
  attempted Samples.host Samples.cfg Samples.netOk
    (Samples.textUpdate 5 "hello") = [] /\
  attempted Samples.host Samples.cfg Samples.netOk
    (Samples.pressUpdate "vote:1") = [].
Proof.
  split; [| split].
  - apply (unrecognized_update_ignored Samples.host Samples.cfg Samples.netOk
             Samples.pollUpdate). reflexivity.
  - apply (unrecognized_update_ignored Samples.host Samples.cfg Samples.netOk
             (Samples.textUpdate 5 "hello")). reflexivity.
  - apply (unrecognized_update_ignored Samples.host Samples.cfg Samples.netOk
             (Samples.pressUpdate "vote:1")). reflexivity.
Defined.

Lemma numEnv_unusable
    (h : Host) (env : list (string * string)) (name : string) (def : float) :
  unusable h env name = true -> numEnv h env name def = def.
Proof.
  unfold unusable, numEnv.
  destruct (lookup env name) eqn:E; intros H; try reflexivity;
    apply negb_true_iff in H; rewrite H;
    destruct (negb (truthy _)); reflexivity.
Qed.

(** The heading test does recognize the log message of a payment. *)
Lemma payment_log_recognized
    (h : Host) (cfg : Config) (update : JsVal) (log : Call) :
  paymentLog h cfg update = Some log -> isPaymentLog log = true.
Proof.
  unfold paymentLog, logText, logLines.
  repeat match goal with
         | |- context [andThen ?o _] =>
             destruct o; cbn [andThen option_map]; try discriminate
         end.
  intros [= <-]. reflexivity.
Qed.

(** C10.  When the administrator variable, or the log-destination variable,
    is absent or its value is not a finite number, [numEnv] yields 0 for it
    (it is a total function: nothing is raised).  With the administrator
    identifier at 0 the check answers [false] for every user, so [/balance]
    and [/tx] are refused to everyone (the refusal is the only call; in a
    message that lacks its chat there is no call); with the log destination
    at 0 no
    update ever makes the handler send a payment log message, and a
    successful payment causes at most the thank-you call: that call alone
    when the message has its chat and the amount converts to text, and no
    call otherwise. *)
Theorem unusable_config_defaults
    (h : Host) (env : list (string * string)) :
  let cfg := loadConfig h env in
  (unusable h env "ADMIN_USER_ID" = true ->
   ADMIN_USER_ID cfg = 0%float /\
   (forall userId, isAdmin cfg userId = false) /\
   (forall net update t,
      isText update = true -> textOf update = JStr t ->
      String.prefix "/balance" t = true \/ String.prefix "/tx" t = true ->
      attempted h cfg net update
      = if hasChat update then [refusalReply h cfg update] else [])) /\
  (unusable h env "LOG_CHAT_ID" = true ->
   LOG_CHAT_ID cfg = 0%float /\
   forall net update,
     Forall (fun c => isPaymentLog c = false) (attempted h cfg net update) /\
     (isPayment update = true ->
      attempted h cfg net update
      = match amountText h update with
        | Some amount =>
            if hasChat update then [thanksCall h cfg update amount] else []
        | None => []
        end)).
Proof.
  cbv zeta. split; intros H.
  - assert (Hz : ADMIN_USER_ID (loadConfig h env) = 0%float)
      by (apply numEnv_unusable; exact H).
    assert (Hno : forall userId, isAdmin (loadConfig h env) userId = false)
      by (intros userId; unfold isAdmin; rewrite Hz; reflexivity).
    split; [exact Hz | split; [exact Hno |]].
    intros net update t Hi Ht Hcmd; unfold attempted.
    destruct (hasChat update) eqn:Hc.
    + destruct Hcmd as [Hb | Hx].
      * rewrite (balance_run h _ net update t) by assumption.
        rewrite Hno. reflexivity.
      * rewrite (tx_run h _ net update t) by assumption.
        rewrite Hno. reflexivity.
    + rewrite (text_without_chat h _ net) by assumption. reflexivity.
  - assert (Hz : LOG_CHAT_ID (loadConfig h env) = 0%float)
      by (apply numEnv_unusable; exact H).
    split; [exact Hz |].
    intros net update. split.
    + unfold attempted, processUpdate.
      apply (emits_try_catch (fun c => isPaymentLog c = false)).
      * apply dispatch_no_log. exact Hz.
      * intros e. apply emits_console_error.
      * constructor.
    + intros Hp. unfold attempted.
      rewrite payment_run by assumption.
      destruct (amountText h update) as [amount |];
        destruct (hasChat update); try reflexivity.
      cbv zeta. unfold afterThanks. rewrite Hz, truthy_zero. reflexivity.
Qed.

Lemma unusable_config_defaults_witness :
  isAdmin Samples.cfgGarbled (JNum 777) = false /\
  attempted Samples.host Samples.cfgBare Samples.netOk Samples.paidUpdate
  = [thanksCall Samples.host Samples.cfgBare Samples.paidUpdate "500"].
Proof.
  split.
  - apply (proj1 (unusable_config_defaults Samples.host
                    [("BOT_TOKEN", "123:abc"); ("ADMIN_USER_ID", "admin");
                     ("LOG_CHAT_ID", "none")]) eq_refl).
  - unfold Samples.cfgBare.
    rewrite (proj2 (proj2 (proj2 (unusable_config_defaults Samples.host
                                    [("BOT_TOKEN", "123:abc")]) eq_refl)
                      Samples.netOk Samples.paidUpdate) eq_refl).
    reflexivity.
Defined.

End TelegramSpec.

(** ** Properties of the registration function *)

Module SetWebhookSpec.

Import SetWebhook.







End SetWebhookSpec.

(** ** Further properties: the client, the gate and the configuration *)

Module ClientFacts.

Import Telegram Invariants.

(** X1.  [tg] always records exactly one request, for [apiUrl(method)] and
    the body it was given, and writes nothing with [console.error].  It
    returns the [result] of an answer whose [ok] is truthy; it throws
    [<method> failed: <description>] for an answer that is not ok and has a
    description, [<method> failed: Unknown Telegram API error] when the
    answer is not JSON, and the error of [fetch] when [fetch] rejects. *)
Theorem tg_outcomes
    (h : Host) (tok : JsVal) (net : Network) (m : string) (b : JsVal)
    (st : Effects) :
  let c := {| method := m; url := apiUrl h tok m; body := b |} in
  let reply := net (List.length (calls st)) c in
  calls (snd (tg h tok net m b st)) = (calls st ++ [c])%list /\
  logged (snd (tg h tok net m b st)) = logged st /\
  (forall fields,
     reply = FetchBody (Some (JObj fields)) ->
     truthy (prop (JObj fields) "ok") = true ->
     fst (tg h tok net m b st) = Return (prop (JObj fields) "result")) /\
  (forall fields d,
     reply = FetchBody (Some (JObj fields)) ->
     truthy (prop (JObj fields) "ok") = false ->
     prop (JObj fields) "description" = JStr d -> d <> "" ->
     fst (tg h tok net m b st) = Throw (Error (m ++ " failed: " ++ d))) /\
  (reply = FetchBody None ->
   fst (tg h tok net m b st)
   = Throw (Error (m ++ " failed: Unknown Telegram API error"))) /\
  (forall e, reply = FetchRejected e -> fst (tg h tok net m b st) = Throw e).
Proof.
  cbv zeta. unfold tg. cbn [fst snd calls logged].
  split; [reflexivity |]. split; [reflexivity |].
  split; [| split; [| split]].
  - intros fields Hr Hok. rewrite Hr. unfold answer.
    cbn [truthy negb orb]. rewrite Hok. reflexivity.
  - intros fields d Hr Hok Hd Hne. rewrite Hr. unfold answer.
    cbn [truthy negb orb]. rewrite Hok. cbn [negb].
    unfold or_else, opt_prop. cbn [nullish]. rewrite Hd.
    apply String.eqb_neq in Hne. cbn [truthy]. rewrite Hne. reflexivity.
  - intros Hr. rewrite Hr. reflexivity.
  - intros e Hr. rewrite Hr. reflexivity.
Qed.

Lemma tg_outcomes_witness :
  fst (tg Samples.host (JStr "123:abc") Samples.netFirstFails "sendMessage"
         (JObj []) no_effects)
  = Throw (Error "sendMessage failed: Forbidden: bot was blocked by the user") /\
  fst (tg Samples.host (JStr "123:abc") netGarbled "sendMessage" (JObj [])
         no_effects)
  = Throw (Error "sendMessage failed: Unknown Telegram API error") /\
  fst (tg Samples.host (JStr "123:abc") Samples.netOk "sendMessage" (JObj [])
         no_effects)
  = Return (JBool true).
Proof.
  pose proof (tg_outcomes Samples.host (JStr "123:abc") Samples.netFirstFails
                "sendMessage" (JObj []) no_effects) as (_ & _ & _ & Hbad & _).
  pose proof (tg_outcomes Samples.host (JStr "123:abc") netGarbled
                "sendMessage" (JObj []) no_effects) as (_ & _ & _ & _ & Hnone & _).
  pose proof (tg_outcomes Samples.host (JStr "123:abc") Samples.netOk
                "sendMessage" (JObj []) no_effects) as (_ & _ & Hok & _).
  split; [| split].
  - apply (Hbad _ "Forbidden: bot was blocked by the user" eq_refl eq_refl eq_refl).
    discriminate.
  - apply Hnone. reflexivity.
  - apply (Hok _ eq_refl eq_refl).
Defined.

Lemma append_cancel_l (p a b : string) : p ++ a = p ++ b -> a = b.
Proof.
  induction p as [| c p IH]; simpl; intros H; [exact H |].
  injection H as H. apply IH. exact H.
Qed.

(** X2.  Two different methods never share an endpoint: [apiUrl] is
    injective in the method, whatever the token. *)
Theorem apiUrl_injective (h : Host) (tok : JsVal) (m1 m2 : string) :
  apiUrl h tok m1 = apiUrl h tok m2 -> m1 = m2.
Proof.
  unfold apiUrl. intros H.
  apply append_cancel_l in H. apply append_cancel_l in H.
  injection H as H. exact H.
Qed.

Lemma apiUrl_injective_witness :
  apiUrl Samples.host (JStr "123:abc") "sendInvoice"
  = "https://api.telegram.org/bot123:abc/" ++ "sendInvoice" /\
  "sendInvoice" = "sendInvoice".
Proof.
  split; [reflexivity |].
  apply (apiUrl_injective Samples.host (JStr "123:abc") "sendInvoice" "sendInvoice").
  reflexivity.
Defined.

(** X3.  Whatever the environment holds, [numEnv] with a finite default
    yields a finite number, never [NaN] or an infinity; so the administrator
    identifier and the log destination of the handler are always finite. *)
Theorem numEnv_finite
    (h : Host) (env : list (string * string)) (name : string) (def : float) :
  PrimFloat.is_finite def = true ->
  PrimFloat.is_finite (numEnv h env name def) = true /\
  PrimFloat.is_finite (ADMIN_USER_ID (loadConfig h env)) = true /\
  PrimFloat.is_finite (LOG_CHAT_ID (loadConfig h env)) = true.
Proof.
  assert (G : forall n d, PrimFloat.is_finite d = true ->
                          PrimFloat.is_finite (numEnv h env n d) = true).
  { intros n d Hd. unfold numEnv.
    destruct (negb (truthy (lookup env n))); [exact Hd |].
    destruct (PrimFloat.is_finite (Number h (lookup env n))) eqn:E;
      [exact E | exact Hd]. }
  intros Hd. split; [apply G; exact Hd |].
  split; apply G; reflexivity.
Qed.

Lemma numEnv_finite_witness :
  PrimFloat.is_finite
    (numEnv Samples.host [("LOG_CHAT_ID", "none")] "LOG_CHAT_ID" 0) = true.
Proof.
  apply (numEnv_finite Samples.host [("LOG_CHAT_ID", "none")] "LOG_CHAT_ID" 0).
  reflexivity.
Defined.

End ClientFacts.

Module GateFacts.

Import Telegram Invariants.

(** X4.  A delivery the gate stops causes no platform call and no
    [console.error], whatever its body holds: 500 when the bot token is
    missing, 200 [ok] without any processing when the method is not POST,
    403 when a secret is configured and the header does not carry it. *)
Theorem gate_stops_delivery
    (h : Host) (cfg : Config) (net : Network) (req : Request) :
  (truthy (BOT_TOKEN cfg) = false ->
   handler h cfg net req
   = ({| status := 500; sent := "BOT_TOKEN missing" |}, no_effects)) /\
  (truthy (BOT_TOKEN cfg) = true -> req_method req <> "POST" ->
   handler h cfg net req = ({| status := 200; sent := "ok" |}, no_effects)) /\
  (truthy (BOT_TOKEN cfg) = true -> req_method req = "POST" ->
   truthy (WEBHOOK_SECRET cfg) = true ->
   strict_eq (lookup (req_headers req) secretHeader) (WEBHOOK_SECRET cfg) = false ->
   handler h cfg net req = ({| status := 403; sent := "forbidden" |}, no_effects)).
Proof.
  unfold handler, secretHeader. split; [| split].
  - intros ->. reflexivity.
  - intros -> Hm. apply String.eqb_neq in Hm. rewrite Hm. reflexivity.
  - intros -> -> -> ->. reflexivity.
Qed.

Lemma gate_stops_delivery_witness :
  handler Samples.host Samples.cfg Samples.netOk
    (delivery "GET" [] Samples.preCheckoutUpdate)
  = ({| status := 200; sent := "ok" |}, no_effects) /\
  handler Samples.host (loadConfig Samples.host guardedEnv) Samples.netOk
    (delivery "POST" [(secretHeader, "guess")] Samples.preCheckoutUpdate)
  = ({| status := 403; sent := "forbidden" |}, no_effects) /\
  handler Samples.host (loadConfig Samples.host []) Samples.netOk
    (delivery "POST" [] Samples.preCheckoutUpdate)
  = ({| status := 500; sent := "BOT_TOKEN missing" |}, no_effects).
Proof.
  split; [| split].
  - apply (gate_stops_delivery Samples.host Samples.cfg Samples.netOk
             (delivery "GET" [] Samples.preCheckoutUpdate));
      [reflexivity | discriminate].
  - apply (gate_stops_delivery Samples.host
             (loadConfig Samples.host guardedEnv) Samples.netOk
             (delivery "POST" [(secretHeader, "guess")] Samples.preCheckoutUpdate));
      reflexivity.
  - apply (gate_stops_delivery Samples.host (loadConfig Samples.host [])
             Samples.netOk (delivery "POST" [] Samples.preCheckoutUpdate)).
    reflexivity.
Defined.

(** X5.  The HTTP answer of the webhook depends on the method and the
    headers of the delivery only: neither the body of the update nor
    anything the platform answers during its handling can change it, so no
    failure of the handling reaches the sender of the delivery. *)
Theorem response_ignores_handling
    (h : Host) (cfg : Config) (net net' : Network) (req req' : Request) :
  req_method req = req_method req' ->
  req_headers req = req_headers req' ->
  fst (handler h cfg net req) = fst (handler h cfg net' req').
Proof.
  intros Hm Hh. unfold handler. rewrite <- Hm, <- Hh.
  destruct (negb (truthy (BOT_TOKEN cfg))); [reflexivity |].
  destruct (negb (String.eqb (req_method req) "POST")); [reflexivity |].
  destruct (truthy (WEBHOOK_SECRET cfg) &&
            negb (strict_eq
                    (lookup (req_headers req) "x-telegram-bot-api-secret-token")
                    (WEBHOOK_SECRET cfg))); reflexivity.
Qed.

Lemma response_ignores_handling_witness :
  fst (handler Samples.host Samples.cfg netDown (delivery "POST" [] JUndefined))
  = fst (handler Samples.host Samples.cfg Samples.netOk
           (delivery "POST" [] Samples.paidUpdate)).
Proof.
  apply (response_ignores_handling Samples.host Samples.cfg netDown Samples.netOk
           (delivery "POST" [] JUndefined) (delivery "POST" [] Samples.paidUpdate));
    reflexivity.
Defined.

Lemma loaded_secret (h : Host) (env : list (string * string)) (s : string) :
  assoc "WEBHOOK_SECRET" env = Some s -> s <> "" ->
  WEBHOOK_SECRET (loadConfig h env) = JStr s /\
  SetWebhook.WEBHOOK_SECRET (SetWebhook.loadConfig env) = JStr s.
Proof.
  intros Hs Hne. apply String.eqb_neq in Hne.
  unfold loadConfig, SetWebhook.loadConfig, WEBHOOK_SECRET,
    SetWebhook.WEBHOOK_SECRET, or_else, lookup.
  rewrite Hs. cbn [truthy]. rewrite Hne. split; reflexivity.
Qed.

(** X6.  The two functions agree on the secret.  When [WEBHOOK_SECRET] is
    set, the registration hands that very string to the platform as
    [secret_token], and the webhook handles a POST exactly when its secret
    header carries that string, answering 403 otherwise.  When it is not
    set, no [secret_token] is registered and every POST is handled. *)
Theorem registered_secret_is_checked_secret
    (h : Host) (net : Network) (env : list (string * string))
    (req : Request) (u : string) :
  truthy (lookup env "BOT_TOKEN") = true ->
  req_method req = "POST" ->
  let handled :=
    ({| status := 200; sent := "ok" |},
     snd (processUpdate h (loadConfig h env) net (req_body req) no_effects)) in
  (forall s,
     assoc "WEBHOOK_SECRET" env = Some s -> s <> "" ->
     prop (SetWebhook.setWebhookBody (SetWebhook.loadConfig env) u) "secret_token"
     = JStr s /\
     (assoc secretHeader (req_headers req) = Some s ->
      handler h (loadConfig h env) net req = handled) /\
     (assoc secretHeader (req_headers req) <> Some s ->
      handler h (loadConfig h env) net req
      = ({| status := 403; sent := "forbidden" |}, no_effects))) /\
  (assoc "WEBHOOK_SECRET" env = None ->
   prop (SetWebhook.setWebhookBody (SetWebhook.loadConfig env) u) "secret_token"
   = JUndefined /\
   handler h (loadConfig h env) net req = handled).
Proof.
  intros Htok Hm. cbv zeta. split.
  - intros s Hs Hne. destruct (loaded_secret h env s Hs Hne) as [Hw Hr].
    split; [| split].
    + unfold SetWebhook.setWebhookBody. rewrite Hr.
      unfold or_else. apply String.eqb_neq in Hne. cbn [truthy]. rewrite Hne.
      reflexivity.
    + intros Hh. unfold handler. rewrite Hw.
      change (BOT_TOKEN (loadConfig h env)) with (lookup env "BOT_TOKEN").
      rewrite Htok, Hm. unfold lookup at 1. fold secretHeader. rewrite Hh.
      cbn [strict_eq]. rewrite !String.eqb_refl.
      rewrite andb_false_r. reflexivity.
    + intros Hh. unfold handler. rewrite Hw.
      change (BOT_TOKEN (loadConfig h env)) with (lookup env "BOT_TOKEN").
      rewrite Htok, Hm. unfold lookup at 1. fold secretHeader.
      assert (Hne' : (s =? "")%string = false) by (apply String.eqb_neq; exact Hne).
      cbn [truthy]. rewrite Hne'. rewrite String.eqb_refl.
      destruct (assoc secretHeader (req_headers req)) as [a |] eqn:Ha;
        cbn [strict_eq]; [| reflexivity].
      destruct (String.eqb_spec a s) as [-> | Hd]; [| reflexivity].
      exfalso. apply Hh. reflexivity.
  - intros Hs. split.
    + unfold SetWebhook.setWebhookBody, SetWebhook.loadConfig,
        SetWebhook.WEBHOOK_SECRET, or_else, lookup. rewrite Hs. reflexivity.
    + assert (Hw : WEBHOOK_SECRET (loadConfig h env) = JStr "")
        by (unfold loadConfig, WEBHOOK_SECRET, or_else, lookup; rewrite Hs;
            reflexivity).
      unfold handler. rewrite Hw.
      change (BOT_TOKEN (loadConfig h env)) with (lookup env "BOT_TOKEN").
      rewrite Htok, Hm. reflexivity.
Qed.

Lemma registered_secret_is_checked_secret_witness :
  prop (SetWebhook.setWebhookBody (SetWebhook.loadConfig guardedEnv)
          "https://stars.example.org/api/telegram") "secret_token"
  = JStr "hook" /\
  fst (handler Samples.host (loadConfig Samples.host guardedEnv) Samples.netOk
         (delivery "POST" [(secretHeader, "hook")] Samples.pollUpdate))
  = {| status := 200; sent := "ok" |} /\
  fst (handler Samples.host (loadConfig Samples.host guardedEnv) Samples.netOk
         (delivery "POST" [] Samples.pollUpdate))
  = {| status := 403; sent := "forbidden" |}.
Proof.
  pose proof (proj1 (registered_secret_is_checked_secret Samples.host Samples.netOk
                guardedEnv
                (delivery "POST" [(secretHeader, "hook")] Samples.pollUpdate)
                "https://stars.example.org/api/telegram" eq_refl eq_refl)
                "hook" eq_refl ltac:(discriminate)) as (Hreg & Hyes & _).
  pose proof (proj1 (registered_secret_is_checked_secret Samples.host Samples.netOk
                guardedEnv (delivery "POST" [] Samples.pollUpdate)
                "https://stars.example.org/api/telegram" eq_refl eq_refl)
                "hook" eq_refl ltac:(discriminate)) as (_ & _ & Hno).
  split; [exact Hreg | split].
  - rewrite (Hyes eq_refl). reflexivity.
  - rewrite (Hno ltac:(discriminate)). reflexivity.
Defined.

End GateFacts.

(** ** Further properties: what the handling of any update may call *)

Module TraceFacts.

Import Telegram Invariants TelegramSpec.

(** *** Following the values the dispatch reads *)

Lemma emits_bind_get {A : Type} (P : Call -> Prop) (v : JsVal) (k : string)
    (cont : JsVal -> M A) :
  emits P (cont (prop v k)) -> emits P (bind (get v k) cont).
Proof.
  intros H st Hst. unfold bind, get.
  destruct (nullish v); [exact Hst | apply H; exact Hst].
Qed.

Lemma emits_if_eqn {A : Type} (P : Call -> Prop) (b : bool) (c1 c2 : M A) :
  (b = true -> emits P c1) -> (b = false -> emits P c2) ->
  emits P (if b then c1 else c2).
Proof. destruct b; intros H1 H2; [apply H1 | apply H2]; reflexivity. Qed.

(** The dispatch hands each section the part of the update it reads. *)
Lemma processUpdate_emits
    (P : Call -> Prop) (h : Host) (cfg : Config) (net : Network) (update : JsVal) :
  emits P (answerPreCheckout h cfg net (preCheckoutOf update)) ->
  emits P (thankAndLog h cfg net (messageOf update) (paymentOf update)) ->
  emits P (textCommand h cfg net (messageOf update) (textOf update)) ->
  emits P (callbackQuery h cfg net (callbackOf update)) ->
  Forall P (attempted h cfg net update).
Proof.
  intros H1 H2 H3 H4. unfold attempted.
  apply (emits_try_catch P); [| intros e; apply emits_console_error | constructor].
  unfold dispatch.
  apply emits_bind_get. apply emits_if; [exact H1 |].
  apply emits_bind_get. cbv zeta. apply emits_if; [exact H2 |].
  apply emits_if; [exact H3 |].
  apply emits_bind_get. apply emits_if; [exact H4 | apply emits_ret].
Qed.

(** X7.  Whatever the update and whatever the platform answers, the webhook
    handler only ever calls the six methods [answerPreCheckoutQuery],
    [sendMessage], [getMyStarBalance], [getStarTransactions],
    [answerCallbackQuery] and [sendInvoice]; in particular it never calls
    [setWebhook]. *)
Theorem only_known_methods
    (h : Host) (cfg : Config) (net : Network) (update : JsVal) :
  Forall (fun c => knownMethod c = true) (attempted h cfg net update) /\
  Forall (fun c => method c <> "setWebhook") (attempted h cfg net update).
Proof.
  assert (G : Forall (fun c => knownMethod c = true) (attempted h cfg net update)).
  { apply processUpdate_emits;
      unfold answerPreCheckout, thankAndLog, textCommand, balanceCommand,
        txCommand, callbackQuery; cbv zeta; repeat emit_step. }
  split; [exact G |].
  apply (Forall_impl _ (P := fun c => knownMethod c = true)); [| exact G].
  intros c Hc Hm. unfold knownMethod in Hc. rewrite Hm in Hc. discriminate Hc.
Qed.

Lemma invoice_branch_safe
    (h : Host) (cfg : Config) (net : Network) (cq : JsVal) :
  emits (fun c => invoiceSafe c = true) (callbackQuery h cfg net cq).
Proof.
  unfold callbackQuery. cbv zeta.
  apply emits_bind; [apply emits_startsWith | intros b].
  apply emits_if; [| apply emits_ret].
  apply emits_bind; [apply emits_split | intros parts].
  apply emits_if_eqn; intros Hin.
  - repeat emit_step.
  - apply negb_false_iff in Hin.
    apply emits_bind; [apply emits_tg; reflexivity | intros _].
    apply emits_bind; [| intros _; apply emits_ret].
    apply emits_tg. exact Hin.
Qed.

(** X8.  Whatever the update and whatever the platform answers, every
    [sendInvoice] call the handler makes is for the in-app currency
    ["XTR"], with an empty provider token and exactly one price, whose
    amount is one of the allowed amounts. *)
Theorem every_invoice_is_stars_invoice
    (h : Host) (cfg : Config) (net : Network) (update : JsVal) :
  Forall (fun c => method c = "sendInvoice" -> starsInvoice (body c) = true)
         (attempted h cfg net update).
Proof.
  apply (Forall_impl _ (P := fun c => invoiceSafe c = true)).
  - intros c Hc Hm. unfold invoiceSafe in Hc. rewrite Hm in Hc. exact Hc.
  - apply processUpdate_emits; [| | | apply invoice_branch_safe];
      unfold answerPreCheckout, thankAndLog, textCommand, balanceCommand,
        txCommand; cbv zeta; repeat emit_step.
Qed.

Lemma balance_without_fetch
    (h : Host) (cfg : Config) (net : Network) (chatId userId : JsVal) :
  isAdmin cfg userId = false ->
  emits (fun c => isFetch c = false) (balanceCommand h cfg net chatId userId).
Proof.
  intros Hna. unfold balanceCommand. rewrite Hna. cbn [negb]. repeat emit_step.
Qed.

Lemma tx_without_fetch
    (h : Host) (cfg : Config) (net : Network) (chatId userId : JsVal) :
  isAdmin cfg userId = false ->
  emits (fun c => isFetch c = false) (txCommand h cfg net chatId userId).
Proof.
  intros Hna. unfold txCommand. rewrite Hna. cbn [negb]. repeat emit_step.
Qed.

(** X9.  An update whose sender is not the administrator (a missing sender
    included) never makes the handler read the balance or the transactions,
    whatever else the update holds and whatever the platform answers. *)
Theorem stranger_never_fetches
    (h : Host) (cfg : Config) (net : Network) (update : JsVal) :
  isAdmin cfg (senderOf update) = false ->
  Forall (fun c => method c <> "getMyStarBalance" /\
                   method c <> "getStarTransactions")
         (attempted h cfg net update).
Proof.
  intros Hna.
  apply (Forall_impl _ (P := fun c => isFetch c = false)).
  - intros c Hc. unfold isFetch in Hc. apply orb_false_iff in Hc as [H1 H2].
    split; apply String.eqb_neq; assumption.
  - apply processUpdate_emits.
    + unfold answerPreCheckout. repeat emit_step.
    + unfold thankAndLog. cbv zeta. repeat emit_step.
    + unfold textCommand.
      apply emits_bind; [apply emits_get | intros chat].
      apply emits_bind; [apply emits_get | intros chatId]. cbv zeta.
      change (opt_prop (prop (messageOf update) "from") "id")
        with (senderOf update).
      apply emits_bind; [repeat emit_step | intros b1].
      apply emits_if; [repeat emit_step |].
      apply emits_bind; [apply emits_startsWith | intros b2].
      apply emits_if; [apply balance_without_fetch; exact Hna |].
      apply emits_bind; [apply emits_startsWith | intros b3].
      apply emits_if; [apply tx_without_fetch; exact Hna | apply emits_ret].
    + unfold callbackQuery. cbv zeta. repeat emit_step.
Qed.

Lemma stranger_never_fetches_witness :
  Forall (fun c => method c <> "getMyStarBalance" /\
                   method c <> "getStarTransactions")
         (attempted Samples.host Samples.cfg Samples.netOk
            (Samples.textUpdate 5 "/balance")).
Proof.
  apply (stranger_never_fetches Samples.host Samples.cfg Samples.netOk
           (Samples.textUpdate 5 "/balance")).
  reflexivity.
Defined.

Ltac addressed :=
  unfold addressedWithin;
  first [ left; reflexivity
        | right; left; reflexivity
        | right; right; left; reflexivity
        | right; right; right; reflexivity ].

Ltac track_step :=
  first
    [ apply emits_ret
    | apply emits_throw
    | apply emits_bind_get; cbv beta
    | apply emits_startsWith
    | apply emits_split
    | apply emits_converted
    | apply emits_tg; addressed
    | apply emits_if
    | apply emits_bind; [| intros ?] ].

(** X10.  Whatever the update and whatever the platform answers, a call of
    its handling that names a chat names the chat of the message, the chat
    of the message of the button press, or the log destination: nothing is
    ever sent to another chat. *)
Theorem replies_stay_in_the_chat
    (h : Host) (cfg : Config) (net : Network) (update : JsVal) :
  Forall (addressedWithin cfg update) (attempted h cfg net update).
Proof.
  apply processUpdate_emits.
  - unfold answerPreCheckout. repeat track_step.
  - unfold thankAndLog. fold (chatOf update).
    apply emits_bind_get. apply emits_bind_get. fold (chatIdOf update).
    cbv zeta. repeat track_step.
  - unfold textCommand, balanceCommand, txCommand. fold (chatOf update).
    apply emits_bind_get. apply emits_bind_get. fold (chatIdOf update).
    cbv zeta. repeat track_step.
  - unfold callbackQuery. cbv zeta.
    fold (callbackChatOf (callbackOf update)). repeat track_step.
Qed.

(** *** Counting calls *)

Lemma adds_ret {A : Type} (p : nat) (a : A) : adds p (ret a).
Proof. intros st. cbn. lia. Qed.

Lemma adds_throw {A : Type} (p : nat) (e : Exn) : adds p (@throw A e).
Proof. intros st. cbn. lia. Qed.

Lemma adds_get (p : nat) (v : JsVal) (k : string) : adds p (get v k).
Proof. unfold get. destruct (nullish v); [apply adds_throw | apply adds_ret]. Qed.

Lemma adds_startsWith (p : nat) (v : JsVal) (s : string) : adds p (startsWith v s).
Proof. destruct v; simpl; first [apply adds_throw | apply adds_ret]. Qed.

Lemma adds_split (p : nat) (v : JsVal) (sep : ascii) : adds p (split v sep).
Proof. destruct v; simpl; first [apply adds_throw | apply adds_ret]. Qed.

Lemma adds_converted (p : nat) (o : option string) : adds p (converted o).
Proof. destruct o; simpl; [apply adds_ret | apply adds_throw]. Qed.

Lemma adds_if {A : Type} (p : nat) (b : bool) (c1 c2 : M A) :
  adds p c1 -> adds p c2 -> adds p (if b then c1 else c2).
Proof. destruct b; intros H1 H2; assumption. Qed.

Lemma adds_bind {A B : Type} (n m : nat) (c : M A) (k : A -> M B) :
  adds n c -> (forall a, adds m (k a)) -> adds (n + m) (bind c k).
Proof.
  intros Hc Hk st. unfold bind. specialize (Hc st).
  destruct (c st) as [[a | e] st']; cbn [snd] in *.
  - specialize (Hk a st'). lia.
  - lia.
Qed.

Lemma adds_tg (h : Host) (tok : JsVal) (net : Network) (m : string) (b : JsVal) :
  adds 1 (tg h tok net m b).
Proof.
  intros st. unfold tg. cbn [snd calls]. rewrite length_app. cbn. lia.
Qed.

Lemma adds_after_tg {B : Type} (p : nat) (h : Host) (tok : JsVal) (net : Network)
    (m : string) (b : JsVal) (k : JsVal -> M B) :
  (forall r, adds p (k r)) -> adds (S p) (bind (tg h tok net m b) k).
Proof. intros Hk. apply (adds_bind 1 p); [apply adds_tg | exact Hk]. Qed.

Lemma adds_after_pure {A B : Type} (p : nat) (c : M A) (k : A -> M B) :
  adds 0 c -> (forall a, adds p (k a)) -> adds p (bind c k).
Proof. intros Hc Hk. apply (adds_bind 0 p); assumption. Qed.

Ltac pure_step :=
  first [ apply adds_ret | apply adds_throw | apply adds_get
        | apply adds_startsWith | apply adds_split | apply adds_converted
        | apply adds_if ].

Ltac count_step :=
  first
    [ pure_step
    | apply adds_after_tg; intros ?
    | apply adds_after_pure; [repeat pure_step | intros ?] ].

(** X11.  No update makes the handler attempt more than two platform
    calls, whatever the platform answers. *)
Theorem at_most_two_calls
    (h : Host) (cfg : Config) (net : Network) (update : JsVal) :
  (List.length (attempted h cfg net update) <= 2)%nat.
Proof.
  assert (G : adds 2 (dispatch h cfg net update)).
  { unfold dispatch, answerPreCheckout, thankAndLog, textCommand,
      balanceCommand, txCommand, callbackQuery. cbv zeta.
    repeat count_step. }
  unfold attempted, processUpdate, try_catch.
  specialize (G no_effects).
  destruct (dispatch h cfg net update no_effects) as [[[] | e] st'];
    cbn [snd calls console_error no_effects List.length] in *; lia.
Qed.

(** *** Stopping at the first rejected call *)

Section FailFast.

Variable h : Host.
Variable net : Network.

Lemma accepted_all_but_last (l : list Call) :
  allAccepted h net l -> allButLastAccepted h net l.
Proof. intros H n c Hn _. apply (H n c Hn). Qed.

Lemma ff_ret {A : Type} (a : A) : failsFast h net (ret a).
Proof. intros st H. split; [reflexivity | exact H]. Qed.

Lemma ff_throw {A : Type} (e : Exn) : failsFast h net (@throw A e).
Proof.
  intros st H. split; [reflexivity | apply accepted_all_but_last; exact H].
Qed.

Lemma ff_get (v : JsVal) (k : string) : failsFast h net (get v k).
Proof. unfold get. destruct (nullish v); [apply ff_throw | apply ff_ret]. Qed.

Lemma ff_startsWith (v : JsVal) (s : string) : failsFast h net (startsWith v s).
Proof. destruct v; simpl; first [apply ff_throw | apply ff_ret]. Qed.

Lemma ff_split (v : JsVal) (sep : ascii) : failsFast h net (split v sep).
Proof. destruct v; simpl; first [apply ff_throw | apply ff_ret]. Qed.

Lemma ff_converted (o : option string) : failsFast h net (converted o).
Proof. destruct o; simpl; [apply ff_ret | apply ff_throw]. Qed.

Lemma ff_if {A : Type} (b : bool) (c1 c2 : M A) :
  failsFast h net c1 -> failsFast h net c2 ->
  failsFast h net (if b then c1 else c2).
Proof. destruct b; intros H1 H2; assumption. Qed.

Lemma ff_bind {A B : Type} (c : M A) (k : A -> M B) :
  failsFast h net c -> (forall a, failsFast h net (k a)) ->
  failsFast h net (bind c k).
Proof.
  intros Hc Hk st H. unfold bind. specialize (Hc st H).
  destruct (c st) as [[a | e] st']; cbn [fst snd] in *.
  - destruct Hc as [Hl Ha]. specialize (Hk a st' Ha).
    destruct Hk as [Hl' Hk]. split; [congruence | exact Hk].
  - exact Hc.
Qed.

Lemma ff_tg (tok : JsVal) (m : string) (b : JsVal) :
  failsFast h net (tg h tok net m b).
Proof.
  intros st H. unfold tg. cbn [fst snd calls logged].
  split; [reflexivity |].
  set (c := {| method := m; url := apiUrl h tok m; body := b |}).
  assert (Hold : forall n c', nth_error (calls st ++ [c]) n = Some c' ->
                              (n < List.length (calls st))%nat ->
                              accepted h net n c' = true).
  { intros n c' Hn Hlt. rewrite nth_error_app1 in Hn by exact Hlt.
    apply (H n c' Hn). }
  destruct (answer h m (net (List.length (calls st)) c)) as [r | e] eqn:E.
  - intros n c' Hn.
    destruct (Nat.lt_ge_cases n (List.length (calls st))) as [Hlt | Hge].
    + apply Hold; assumption.
    + assert (Hlen : (n < List.length (calls st ++ [c]))%nat)
        by (apply nth_error_Some; rewrite Hn; discriminate).
      rewrite length_app in Hlen. cbn in Hlen.
      assert (n = List.length (calls st)) by lia. subst n.
      rewrite nth_error_app2 in Hn by lia.
      rewrite Nat.sub_diag in Hn. cbn in Hn. injection Hn as <-.
      unfold accepted. cbn [method c]. rewrite E. reflexivity.
  - intros n c' Hn Hlt. rewrite length_app in Hlt. cbn in Hlt.
    apply Hold; [exact Hn | lia].
Qed.

End FailFast.

Ltac ff_step :=
  first [ apply ff_ret | apply ff_throw | apply ff_get | apply ff_startsWith
        | apply ff_split | apply ff_converted
        | apply ff_tg | apply ff_if | apply ff_bind; [| intros ?] ].

(** X12.  The handling of an update stops at the first call the platform
    rejects: in the trace of any update every call but the last was
    accepted.  At most one error is written with [console.error], and when
    none is written every call of the trace was accepted. *)
Theorem rejected_call_is_last
    (h : Host) (cfg : Config) (net : Network) (update : JsVal) :
  allButLastAccepted h net (attempted h cfg net update) /\
  (List.length (faults h cfg net update) <= 1)%nat /\
  (faults h cfg net update = [] -> allAccepted h net (attempted h cfg net update)).
Proof.
  assert (G : failsFast h net (dispatch h cfg net update)).
  { unfold dispatch, answerPreCheckout, thankAndLog, textCommand,
      balanceCommand, txCommand, callbackQuery. cbv zeta.
    repeat ff_step. }
  assert (H0 : allAccepted h net (calls no_effects)).
  { intros n c Hn. destruct n; discriminate Hn. }
  specialize (G no_effects H0).
  unfold attempted, faults, processUpdate, try_catch.
  destruct (dispatch h cfg net update no_effects) as [[[] | e] st'];
    cbn [fst snd calls logged console_error no_effects] in *;
    destruct G as [Hl Ha]; rewrite Hl; cbn [app List.length].
  - split; [apply accepted_all_but_last; exact Ha |].
    split; [lia | intros _; exact Ha].
  - split; [exact Ha |]. split; [lia | discriminate].
Qed.

Lemma rejected_call_is_last_witness :
  faults Samples.host Samples.cfg Samples.netOk Samples.paidUpdate = [] /\
  accepted Samples.host Samples.netOk 0
    (thanksCall Samples.host Samples.cfg Samples.paidUpdate "500") = true.
Proof.
  split; [reflexivity |].
  apply (proj2 (proj2 (rejected_call_is_last Samples.host Samples.cfg
                         Samples.netOk Samples.paidUpdate)) eq_refl 0%nat).
  reflexivity.
Defined.

End TraceFacts.

(** ** Further properties: tokens, commands and the keyboard *)

Module DonationFacts.

Import Telegram Invariants TelegramSpec.

Lemma split_colon_free (a : string) :
  colonFree a = true -> split_on ":" a = [a].
Proof.
  induction a as [| c r IH]; [reflexivity |].
  cbn [colonFree split_on]. intros H. apply andb_true_iff in H as [Hc Hr].
  apply negb_true_iff in Hc. rewrite Hc, (IH Hr). reflexivity.
Qed.

Lemma split_at_colon (a rest : string) :
  colonFree a = true ->
  split_on ":" (a ++ String ":" rest) = a :: split_on ":" rest.
Proof.
  induction a as [| c r IH]; [reflexivity |].
  cbn [colonFree]. intros H. apply andb_true_iff in H as [Hc Hr].
  apply negb_true_iff in Hc.
  change (String c r ++ String ":" rest) with (String c (r ++ String ":" rest)).
  cbn [split_on]. rewrite Hc, (IH Hr). reflexivity.
Qed.

(** X13.  The amount of a donation token is what stands between its first
    and its second colon: [donate:<a>] names [Number(a)], and so does
    [donate:<a>:<anything>], whatever follows the second colon. *)
Theorem amount_is_second_field (h : Host) (a : string) :
  colonFree a = true ->
  amountOf h ("donate:" ++ a) = Number h (JStr a) /\
  forall rest, amountOf h ("donate:" ++ a ++ ":" ++ rest) = Number h (JStr a).
Proof.
  intros Ha. unfold amountOf. split.
  - change ("donate:" ++ a) with ("donate" ++ String ":" a).
    rewrite split_at_colon by reflexivity.
    rewrite (split_colon_free a Ha). reflexivity.
  - intros rest.
    change ("donate:" ++ a ++ ":" ++ rest)
      with ("donate" ++ String ":" (a ++ String ":" rest)).
    rewrite split_at_colon by reflexivity.
    rewrite (split_at_colon a rest Ha). reflexivity.
Qed.

Lemma amount_is_second_field_witness :
  amountOf Samples.host "donate:1000:again" = 1000%float.
Proof.
  apply (proj2 (amount_is_second_field Samples.host "1000" eq_refl) "again").
Defined.

(** X14.  [/start] is matched exactly: a text that continues after
    [/start], such as [/start promo] or [/start@bot], causes no call at
    all. *)
Theorem start_with_suffix_ignored
    (h : Host) (cfg : Config) (net : Network) (update : JsVal)
    (c : ascii) (s : string) :
  isText update = true ->
  textOf update = JStr ("/start" ++ String c s) ->
  attempted h cfg net update = [] /\ completion h cfg net update = Return tt.
Proof.
  intros Hi Ht. unfold attempted, completion.
  destruct (hasChat update) eqn:Hc.
  - unfold processUpdate, try_catch.
    rewrite (text_string h cfg net update ("/start" ++ String c s)) by assumption.
    change (isDonateCommand ("/start" ++ String c s)) with false.
    change (String.prefix "/balance" ("/start" ++ String c s)) with false.
    change (String.prefix "/tx" ("/start" ++ String c s)) with false.
    split; reflexivity.
  - rewrite (text_without_chat h cfg net) by assumption. split; reflexivity.
Qed.

Lemma start_with_suffix_ignored_witness :
  attempted Samples.host Samples.cfg Samples.netOk
    (Samples.textUpdate 5 "/start promo") = [].
Proof.
  apply (start_with_suffix_ignored Samples.host Samples.cfg Samples.netOk
           (Samples.textUpdate 5 "/start promo") " " "promo");
    reflexivity.
Defined.

Ltac pressed h cfg net update Hcb Hd Hc a tok :=
  exists a;
  split; [cbn; repeat (first [left; reflexivity | right]) |];
  split; [reflexivity |];
  unfold attempted;
  rewrite (callback_run h cfg net update tok Hcb
             (token_data _ tok Hd eq_refl) eq_refl);
  rewrite Hc; reflexivity.

(** X15.  The keyboard and the callback branch fit together: a press, from
    a chat, on any choice of the keyboard the handler sends is acknowledged
    and then answered with the invoice for the very amount that choice is
    labelled with (the invoice following once the acknowledgment is
    accepted). *)
Theorem every_choice_is_invoiced
    (h : Host) (cfg : Config) (net : Network) (update b : JsVal) :
  In b (concat (rowsOf (donateKeyboard h))) ->
  isCallback update = true ->
  prop (callbackOf update) "data" = tokenOf b ->
  truthy (callbackChatOf (callbackOf update)) = true ->
  let cq := callbackOf update in
  exists a : float,
    In a AMOUNTS /\
    prop b "text" = JStr (NumberToString h a ++ " ⭐") /\
    attempted h cfg net update
    = plainAck h cfg cq ::
      (if accepted h net 0 (plainAck h cfg cq)
       then [invoiceCall h cfg cq a] else []).
Proof.
  intros Hin Hcb Hd Hc. cbv zeta.
  rewrite donateKeyboard_grid in Hin. cbn in Hin.
  destruct Hin as [<- | [<- | [<- | [<- | [<- | [<- | [<- | []]]]]]]];
    cbn in Hd.
  - pressed h cfg net update Hcb Hd Hc 500%float "donate:500".
  - pressed h cfg net update Hcb Hd Hc 1000%float "donate:1000".
  - pressed h cfg net update Hcb Hd Hc 1500%float "donate:1500".
  - pressed h cfg net update Hcb Hd Hc 2000%float "donate:2000".
  - pressed h cfg net update Hcb Hd Hc 3000%float "donate:3000".
  - pressed h cfg net update Hcb Hd Hc 4000%float "donate:4000".
  - pressed h cfg net update Hcb Hd Hc 5000%float "donate:5000".
Qed.

Lemma every_choice_is_invoiced_witness :
  exists a : float,
    In a AMOUNTS /\
    attempted Samples.host Samples.cfg Samples.netOk (Samples.pressUpdate "donate:3000")
    = [plainAck Samples.host Samples.cfg
         (callbackOf (Samples.pressUpdate "donate:3000"));
       invoiceCall Samples.host Samples.cfg
         (callbackOf (Samples.pressUpdate "donate:3000")) a].
Proof.
  destruct (every_choice_is_invoiced Samples.host Samples.cfg Samples.netOk
              (Samples.pressUpdate "donate:3000")
              (choice "3000 ⭐" "donate:3000"))
    as (a & Ha & _ & Hrun).
  - cbn. right. right. right. right. left. reflexivity.
  - reflexivity.
  - reflexivity.
  - reflexivity.
  - exists a. split; [exact Ha | exact Hrun].
Defined.

End DonationFacts.

(** ** Further properties of the registration function *)

Module SetWebhookFacts.

Import SetWebhook.

(** X16.  The registration function answers 200 only after the platform
    has accepted its one [setWebhook] call. *)
Theorem success_means_registered
    (h : Host) (cfg : Config) (net : Network) (req : Request) :
  status (fst (handler h cfg net req)) = 200%Z ->
  let reg := registration h cfg (webhookUrl h req) in
  calls (snd (handler h cfg net req)) = [reg] /\
  Telegram.accepted h net 0 reg = true.
Proof.
  cbv zeta. unfold handler, registration, Telegram.accepted.
  destruct (negb (truthy (BOT_TOKEN cfg))); [discriminate |].
  destruct (negb (truthy (SETUP_KEY cfg)) || _); [discriminate |].
  unfold tg. cbn [calls no_effects List.length app method].
  destruct (answer h "setWebhook" (net 0%nat _)); cbn [fst snd status calls];
    [intros _; split; reflexivity | discriminate].
Qed.

Lemma success_means_registered_witness :
  Telegram.accepted Samples.host Samples.netOk 0
    (registration Samples.host (loadConfig Samples.setupEnv)
       "https://stars.example.org/api/telegram") = true.
Proof.
  apply (success_means_registered Samples.host (loadConfig Samples.setupEnv)
           Samples.netOk (Samples.setupRequest "s3cret" Samples.direct)).
  reflexivity.
Defined.

(** X17.  When the key matches and the registration call fails, the answer
    is 500 and tells why: [Error: setWebhook failed: <description>] with the
    description the platform gave, [... Unknown Telegram API error] when its
    answer is not JSON, and the message of the error of [fetch] when the
    platform could not be reached.  The one call stays in the trace. *)
Theorem registration_failure_reported
    (h : Host) (cfg : Config) (net : Network) (req : Request) :
  truthy (BOT_TOKEN cfg) = true ->
  truthy (SETUP_KEY cfg) = true ->
  strict_eq (or_else (suppliedKey req) (JStr "")) (SETUP_KEY cfg) = true ->
  let reg := registration h cfg (webhookUrl h req) in
  let failed := fun text =>
    handler h cfg net req
    = ({| status := 500; sent := "Error: " ++ text |},
       {| calls := [reg]; logged := [] |}) in
  (forall fields d,
     net 0%nat reg = FetchBody (Some (JObj fields)) ->
     truthy (prop (JObj fields) "ok") = false ->
     prop (JObj fields) "description" = JStr d -> d <> "" ->
     failed ("setWebhook failed: " ++ d)) /\
  (net 0%nat reg = FetchBody None ->
   failed "setWebhook failed: Unknown Telegram API error") /\
  (forall e, net 0%nat reg = FetchRejected e -> failed (message e)).
Proof.
  intros Htok Hk He. cbv zeta. unfold handler, suppliedKey in *.
  rewrite Htok, Hk, He. cbn [negb orb].
  unfold tg, registration. cbn [calls logged no_effects List.length app].
  split; [| split].
  - intros fields d Hr Hok Hd Hne. rewrite Hr. unfold answer.
    cbn [truthy negb orb]. rewrite Hok. cbn [negb].
    unfold or_else, opt_prop. cbn [nullish]. rewrite Hd.
    apply String.eqb_neq in Hne. cbn [truthy]. rewrite Hne. reflexivity.
  - intros Hr. rewrite Hr. reflexivity.
  - intros e Hr. rewrite Hr. reflexivity.
Qed.

Lemma registration_failure_reported_witness :
  fst (handler Samples.host (loadConfig Samples.setupEnv) Samples.netFirstFails
         (Samples.setupRequest "s3cret" Samples.direct))
  = {| status := 500;
       sent := "Error: setWebhook failed: Forbidden: bot was blocked by the user" |}.
Proof.
  pose proof (registration_failure_reported Samples.host
                (loadConfig Samples.setupEnv) Samples.netFirstFails
                (Samples.setupRequest "s3cret" Samples.direct)
                eq_refl eq_refl eq_refl) as (Hbad & _).
  rewrite (Hbad _ "Forbidden: bot was blocked by the user" eq_refl eq_refl eq_refl
             ltac:(discriminate)).
  reflexivity.
Defined.

End SetWebhookFacts.
